(** * PR review bot: a shallow embedding of [pr_review_bot.py]

    The bot lists the files changed between two refs, fetches for each one
    its diff and its content at the source ref, builds a prompt, posts it
    to an Ollama endpoint and collects one [FileReview] per file.

    Python text is modelled by [string], read as a sequence of code points
    below 256.  The two collaborators ([subprocess.run] on git and
    [requests.post] on the endpoint) are the only effects; a method is a
    tree of such calls whose leaves carry either a value or the exception
    that left the method. *)

From Stdlib Require Import String Ascii List ZArith Bool Lia.
Import ListNotations.
Set Warnings "-register-all".
Open Scope list_scope.
Open Scope string_scope.

(** ** Python [str] operations used by the bot *)

Module PyStr.

Definition LF : ascii := "010"%char.
Definition CR : ascii := "013"%char.
Definition TAB : ascii := "009"%char.
Definition SPACE : ascii := " "%char.
Definition nl : string := String LF "".

(** [str.isspace] on one code point below 256. *)
Definition isspace (c : ascii) : bool :=
  let n := nat_of_ascii c in
  (((9 <=? n) && (n <=? 13)) || ((28 <=? n) && (n <=? 32))
   || (n =? 133) || (n =? 160))%nat.

(** The line boundaries of [str.splitlines] below 256. *)
Definition is_linebreak (c : ascii) : bool :=
  let n := nat_of_ascii c in
  (((10 <=? n) && (n <=? 13)) || ((28 <=? n) && (n <=? 30)) || (n =? 133))%nat.

(** [str.splitlines()]: [cur] is the line read so far.  A final line
    break opens no empty last line, and CR LF is one boundary. *)
Fixpoint splitlines_from (cur s : string) : list string :=
  match s with
  | EmptyString => match cur with EmptyString => [] | _ => [cur] end
  | String c rest =>
      if is_linebreak c then
        cur :: match rest with
               | String d rest' =>
                   if (Ascii.eqb c CR && Ascii.eqb d LF)%bool
                   then splitlines_from "" rest'
                   else splitlines_from "" rest
               | EmptyString => splitlines_from "" rest
               end
      else splitlines_from (cur ++ String c "") rest
  end.

Definition splitlines (s : string) : list string := splitlines_from "" s.

Fixpoint lstrip (s : string) : string :=
  match s with
  | EmptyString => ""
  | String c rest => if isspace c then lstrip rest else s
  end.

Fixpoint rstrip (s : string) : string :=
  match s with
  | EmptyString => ""
  | String c rest =>
      match rstrip rest with
      | EmptyString => if isspace c then "" else String c ""
      | kept => String c kept
      end
  end.

(** [str.strip()] *)
Definition strip (s : string) : string := rstrip (lstrip s).

(** Truth value of a [str]: non-empty. *)
Definition truthy (s : string) : bool :=
  match s with EmptyString => false | _ => true end.

(** [needle in hay] *)
Fixpoint contains (hay needle : string) : bool :=
  String.prefix needle hay
  || match hay with
     | EmptyString => false
     | String _ rest => contains rest needle
     end.

(** [needle] occurs in [hay]. *)
Definition substring (needle hay : string) : Prop :=
  exists pre post, hay = pre ++ needle ++ post.

(** [str.split("\n")]: never empty, the pieces carry no line feed. *)
Fixpoint split_nl (s : string) : list string :=
  match s with
  | EmptyString => [""]
  | String c rest =>
      if Ascii.eqb c LF then "" :: split_nl rest
      else match split_nl rest with
           | [] => [String c ""]
           | l :: ls => String c l :: ls
           end
  end.

Definition join_nl (lines : list string) : string := String.concat nl lines.

(** *** [textwrap.dedent]

    The library function works on the whole text with three regular
    expressions, all of them anchored on the lines that ["\n"] delimits;
    it is written here line by line.  [^[ \t]+$] blanks the lines made
    of spaces and tabs only; the margin is folded over the leading
    whitespace of the other non-empty lines; a non-empty margin is then
    removed at the start of every line that begins with it.  (This is
    the function of CPython up to 3.13; the one of 3.14 blanks the same
    lines and removes the same margin on text without other
    whitespace.) *)

Definition is_blank (c : ascii) : bool := Ascii.eqb c SPACE || Ascii.eqb c TAB.

Fixpoint whitespace_only (line : string) : bool :=
  match line with
  | EmptyString => true
  | String c rest => is_blank c && whitespace_only rest
  end.

Definition normalize_line (line : string) : string :=
  if whitespace_only line then "" else line.

Fixpoint leading_whitespace (line : string) : string :=
  match line with
  | EmptyString => ""
  | String c rest => if is_blank c then String c (leading_whitespace rest) else ""
  end.

(** [margin[:i]] for the first [i] where [margin[i] != indent[i]], if the
    zip of the two has one. *)
Fixpoint cut_at_mismatch (margin indent : string) : option string :=
  match margin, indent with
  | String x m', String y i' =>
      if Ascii.eqb x y
      then option_map (String x) (cut_at_mismatch m' i')
      else Some ""
  | _, _ => None
  end.

Definition margin_step (margin : option string) (indent : string) : option string :=
  match margin with
  | None => Some indent
  | Some m =>
      if String.prefix m indent then Some m
      else if String.prefix indent m then Some indent
      else match cut_at_mismatch m indent with
           | Some cut => Some cut
           | None => Some m
           end
  end.

Definition indents (lines : list string) : list string :=
  map leading_whitespace (filter (fun l => negb (whitespace_only l)) lines).

Fixpoint drop (n : nat) (s : string) : string :=
  match n, s with
  | S n', String _ rest => drop n' rest
  | _, _ => s
  end.

Definition remove_margin (margin line : string) : string :=
  if String.prefix margin line then drop (String.length margin) line else line.

Definition dedent (text : string) : string :=
  let lines := map normalize_line (split_nl text) in
  match fold_left margin_step (indents lines) None with
  | Some (String c m) => join_nl (map (remove_margin (String c m)) lines)
  | _ => join_nl lines
  end.

End PyStr.

(** ** Data *)

(** What [response.json()] can return. *)
Inductive json : Type :=
| JNull
| JBool (b : bool)
| JNumber (literal : string)
| JString (s : string)
| JArray (items : list json)
| JObject (members : list (string * json)).

(** [dict.get(key)] on the members of an object. *)
Fixpoint lookup (key : string) (members : list (string * json)) : option json :=
  match members with
  | [] => None
  | (k, v) :: rest => if String.eqb k key then Some v else lookup key rest
  end.

(** The dataclass [FileReview].  [comments] is annotated [str] but holds
    whatever [_call_model] returned, which is a member of the decoded
    response. *)
Record FileReview : Type := mkFileReview { path : string; comments : json }.

(** The attributes [__init__] sets. *)
Record PRReviewBot : Type := mkBot {
  repo_path : string;
  model : string;
  endpoint : string
}.

Definition default_bot : PRReviewBot :=
  mkBot "." "llama3" "http://localhost:11434/api/generate".

(** ** Collaborators and exceptions *)

(** How [subprocess.run(..., text=True, capture_output=True)] ends: the
    child exits, or the call itself fails (no executable, bad [cwd],
    output that does not decode). *)
Inductive run_outcome : Type :=
| Exited (returncode : Z) (stdout stderr : string)
| SpawnError (msg : string).

Record CompletedProcess : Type := mkCompleted {
  returncode : Z;
  stdout : string;
  stderr : string
}.

(** A [requests.Response]: its status and what [.json()] makes of its
    body, [None] when the body does not decode.  It is the response the
    call returns: when the library followed redirects, the last one. *)
Record Response : Type := mkResponse {
  status_code : Z;
  decoded : option json
}.

(** How one call of [requests.post] ends: it returns a response, or it
    raises; [RequestFailed] stands for the exceptions of the library
    other than a failed connection and a timeout (a URL it cannot use,
    too many redirects).  What the library sends for one call, such as
    the requests of the redirects it follows, is not part of the
    outcome. *)
Inductive post_outcome : Type :=
| Responded (r : Response)
| ConnectionFailed
| TimedOut
| RequestFailed (reason : string).

Inductive exn : Type :=
| CalledProcessError (code : Z) (cmd : list string) (output err : string)
| OSError (msg : string)
| ConnectionError
| Timeout
| HTTPError (status : Z)
| JSONDecodeError
| RequestException (reason : string)
| AttributeError.

(** The two error families of the specification: what [_run_git] lets
    out of [subprocess.run], and the [requests.RequestException]s. *)
Inductive error_kind : Type := VcsError | InferenceError | OtherError.

Definition kind_of (e : exn) : error_kind :=
  match e with
  | CalledProcessError _ _ _ _ | OSError _ => VcsError
  | ConnectionError | Timeout | HTTPError _ | JSONDecodeError
  | RequestException _ => InferenceError
  | AttributeError => OtherError
  end.

(** ** Programs over the collaborators *)

Inductive io (A : Type) : Type :=
| Ret (a : A)
| SubprocessRun (argv : list string) (cwd : string) (k : run_outcome -> io A)
| RequestsPost (url : string) (payload : json) (timeout : Z)
    (k : post_outcome -> io A).

Arguments Ret {A} a.
Arguments SubprocessRun {A} argv cwd k.
Arguments RequestsPost {A} url payload timeout k.

Fixpoint io_bind {A B : Type} (p : io A) (f : A -> io B) : io B :=
  match p with
  | Ret a => f a
  | SubprocessRun argv cwd k => SubprocessRun argv cwd (fun o => io_bind (k o) f)
  | RequestsPost url payload timeout k =>
      RequestsPost url payload timeout (fun o => io_bind (k o) f)
  end.

(** A method: it runs on [self], may call the collaborators, and ends
    with a value or an exception, and with [self] as it left it. *)
Definition result (A : Type) : Type := (exn + A)%type.

Definition M (A : Type) : Type := PRReviewBot -> io (result A * PRReviewBot).

Definition ret {A : Type} (a : A) : M A := fun self => Ret (inr a, self).

Definition raise {A : Type} (e : exn) : M A := fun self => Ret (inl e, self).

Definition bind {A B : Type} (m : M A) (f : A -> M B) : M B :=
  fun self =>
    io_bind (m self)
      (fun rs => match fst rs with
                 | inl e => Ret (inl e, snd rs)
                 | inr a => f a (snd rs)
                 end).

Declare Scope py_scope.
Delimit Scope py_scope with py.
Notation "x <- m ;; k" := (bind m (fun x => k))
  (at level 61, m at next level, right associativity) : py_scope.
Notation "m ;;; k" := (bind m (fun _ => k))
  (at level 61, right associativity) : py_scope.
Open Scope py_scope.

(** [self.<field>] *)
Definition getattr {A : Type} (field : PRReviewBot -> A) : M A :=
  fun self => Ret (inr (field self), self).

(** [subprocess.run(argv, cwd=cwd, check=True, text=True,
    capture_output=True)]: with [check=True] a non-zero exit status is
    raised as [CalledProcessError]. *)
Definition completed (argv : list string) (o : run_outcome) : result CompletedProcess :=
  match o with
  | Exited rc out err =>
      if (rc =? 0)%Z then inr (mkCompleted rc out err)
      else inl (CalledProcessError rc argv out err)
  | SpawnError msg => inl (OSError msg)
  end.

Definition subprocess_run (argv : list string) (cwd : string) : M CompletedProcess :=
  fun self => SubprocessRun argv cwd (fun o => Ret (completed argv o, self)).

(** [requests.post(url, json=payload, timeout=timeout)]: one call of
    the library, which returns its response or raises. *)
Definition received (o : post_outcome) : result Response :=
  match o with
  | Responded r => inr r
  | ConnectionFailed => inl ConnectionError
  | TimedOut => inl Timeout
  | RequestFailed reason => inl (RequestException reason)
  end.

Definition requests_post (url : string) (payload : json) (timeout : Z) : M Response :=
  fun self => RequestsPost url payload timeout (fun o => Ret (received o, self)).

(** [Response.raise_for_status()]: it raises on the client and server
    error statuses, 400 to 599, and on no other. *)
Definition error_status (status : Z) : bool := ((400 <=? status) && (status <? 600))%Z.

Definition raise_for_status (r : Response) : M unit :=
  if error_status (status_code r) then raise (HTTPError (status_code r)) else ret tt.

(** [Response.json()] *)
Definition response_json (r : Response) : M json :=
  match decoded r with
  | Some data => ret data
  | None => raise JSONDecodeError
  end.

(** [data.get(key, default)]: only a dict has the method. *)
Definition py_get (data : json) (key : string) (default : json) : M json :=
  match data with
  | JObject members =>
      ret match lookup key members with Some v => v | None => default end
  | _ => raise AttributeError
  end.

(** ** The bot *)

Definition _run_git (args : list string) : M string :=
  cwd <- getattr repo_path ;;
  result <- subprocess_run ("git" :: args) cwd ;;
  ret (stdout result).

Definition _changed_files (source target : string) : M (list string) :=
  out <- _run_git ["diff"; "--name-only"; target ++ ".." ++ source] ;;
  ret (filter PyStr.truthy (map PyStr.strip (PyStr.splitlines out))).

Definition _file_diff (source target path : string) : M string :=
  _run_git ["diff"; target ++ ".." ++ source; "--"; path].

Definition _file_content (branch path : string) : M string :=
  _run_git ["show"; branch ++ ":" ++ path].

(** The [json=] argument of the request. *)
Definition request_payload (name prompt : string) : json :=
  JObject [("model", JString name); ("prompt", JString prompt); ("stream", JBool false)].

Definition _call_model (prompt : string) : M json :=
  url <- getattr endpoint ;;
  name <- getattr model ;;
  response <- requests_post url (request_payload name prompt) 300 ;;
  raise_for_status response ;;;
  data <- response_json response ;;
  py_get data "response" (JString "").

(** The f-string of [_analyze], one source line per item: it opens with
    a line feed and every line of the literal is indented by twelve
    spaces, the closing one included. *)
Definition indent12 : string := "            ".

Definition prompt_text (file_path diff full_content source target : string) : string :=
  PyStr.join_nl
    [ "";
      indent12 ++ "You are an expert software engineer assisting with pull request reviews.";
      indent12 ++ "Compare two branches: " ++ target ++ " (base) and " ++ source ++ " (feature).";
      indent12 ++ "A developer has changed the file `" ++ file_path ++ "`. You are given the full";
      indent12 ++ "content of the file from the feature branch along with the diff patch";
      indent12 ++ "between the base and feature branch. Consider the entire file but limit";
      indent12 ++ "your comments strictly to lines that are part of the diff. Highlight";
      indent12 ++ "potential bugs, wrong logic, bad coding practices, and opportunities for";
      indent12 ++ "improvement. Be concise and reference line numbers from the patch when";
      indent12 ++ "possible.";
      "";
      indent12 ++ "<file_content>";
      indent12 ++ full_content;
      indent12 ++ "</file_content>";
      "";
      indent12 ++ "<diff_patch>";
      indent12 ++ diff;
      indent12 ++ "</diff_patch>";
      "";
      indent12 ++ "Provide your review now.";
      indent12 ].

(** The prompt [_analyze] sends. *)
Definition build_prompt (file_path diff full_content source target : string) : string :=
  PyStr.strip (PyStr.dedent (prompt_text file_path diff full_content source target)).

Definition _analyze (file_path diff full_content source target : string) : M json :=
  let prompt := build_prompt file_path diff full_content source target in
  _call_model prompt.

(** The [for] loop of [review], [reviews] being the list it appends to. *)
Fixpoint review_loop (source target : string) (files : list string)
    (reviews : list FileReview) : M (list FileReview) :=
  match files with
  | [] => ret reviews
  | path :: rest =>
      diff <- _file_diff source target path ;;
      content <- _file_content source path ;;
      comments <- _analyze path diff content source target ;;
      review_loop source target rest (reviews ++ [mkFileReview path comments])%list
  end.

Definition review (source target : string) : M (list FileReview) :=
  files <- _changed_files source target ;;
  review_loop source target files [].

(** ** Running a program against collaborators

    A collaborator answers from its own state [W], so that two calls
    with the same arguments may be answered differently.  An event is
    one call of the bot to [subprocess.run] or to [requests.post], with
    its arguments and its outcome. *)

Inductive event : Type :=
| EvRun (argv : list string) (cwd : string) (o : run_outcome)
| EvPost (url : string) (payload : json) (timeout : Z) (o : post_outcome).

Record Collaborators (W : Type) : Type := mkCollaborators {
  git_process : W -> list string -> string -> run_outcome * W;
  http_server : W -> string -> json -> Z -> post_outcome * W
}.

Arguments mkCollaborators {W} _ _.
Arguments git_process {W} _ _ _ _.
Arguments http_server {W} _ _ _ _ _.

Record run (A W : Type) : Type := mkRun {
  outcome : A;
  world : W;
  trace : list event
}.

Arguments mkRun {A W} _ _ _.
Arguments outcome {A W} _.
Arguments world {A W} _.
Arguments trace {A W} _.

Fixpoint exec {W A : Type} (C : Collaborators W) (p : io A) (w : W) : run A W :=
  match p with
  | Ret a => mkRun a w []
  | SubprocessRun argv cwd k =>
      let (o, w') := git_process C w argv cwd in
      let r := exec C (k o) w' in
      mkRun (outcome r) (world r) (EvRun argv cwd o :: trace r)
  | RequestsPost url payload timeout k =>
      let (o, w') := http_server C w url payload timeout in
      let r := exec C (k o) w' in
      mkRun (outcome r) (world r) (EvPost url payload timeout o :: trace r)
  end.

(** [bot.review(source, target)] against collaborators [C] in state [w]. *)
Definition run_review {W : Type} (C : Collaborators W) (self : PRReviewBot)
    (source target : string) (w : W) : run (result (list FileReview) * PRReviewBot) W :=
  exec C (review source target self) w.

Definition is_post (ev : event) : bool :=
  match ev with EvPost _ _ _ _ => true | EvRun _ _ _ => false end.

(** Number of model-inference calls in a trace. *)
Definition model_calls (tr : list event) : nat := List.length (filter is_post tr).

(** ** What a collaborator's answer makes of a call *)

(** What [_run_git] returns or raises when the child ends as [o]. *)
Definition git_stdout (argv : list string) (o : run_outcome) : result string :=
  match completed argv o with
  | inl e => inl e
  | inr p => inr (stdout p)
  end.

(** What [_call_model] returns or raises when the request ends as [o]. *)
Definition model_reply (o : post_outcome) : result json :=
  match o with
  | Responded r =>
      if error_status (status_code r) then inl (HTTPError (status_code r))
      else match decoded r with
           | None => inl JSONDecodeError
           | Some (JObject members) =>
               inr match lookup "response" members with
                   | Some v => v
                   | None => JString ""
                   end
           | Some _ => inl AttributeError
           end
  | ConnectionFailed => inl ConnectionError
  | TimedOut => inl Timeout
  | RequestFailed reason => inl (RequestException reason)
  end.

(** The exception a collaborator's answer raises in the bot, if any. *)
Definition event_error (ev : event) : option exn :=
  match ev with
  | EvRun argv _ o => match git_stdout argv o with inl e => Some e | inr _ => None end
  | EvPost _ _ _ o => match model_reply o with inl e => Some e | inr _ => None end
  end.

Definition succeeded (ev : event) : bool :=
  match event_error ev with None => true | Some _ => false end.

(** The answer of a collaborator, without the call that asked for it. *)
Inductive response : Type :=
| RunResponse (o : run_outcome)
| PostResponse (o : post_outcome).

Definition response_of (ev : event) : response :=
  match ev with
  | EvRun _ _ o => RunResponse o
  | EvPost _ _ _ o => PostResponse o
  end.

(** The model answered with the text [S]: a 2xx response whose object
    has [S] as its generated text. *)
Definition answers_with (S : string) (o : post_outcome) : bool :=
  match o with
  | Responded r =>
      ((200 <=? status_code r) && (status_code r <? 300))%Z
      && match decoded r with
         | Some (JObject members) =>
             match lookup "response" members with
             | Some (JString s) => String.eqb s S
             | _ => false
             end
         | _ => false
         end
  | _ => false
  end.

Definition model_says (S : string) (ev : event) : bool :=
  match ev with
  | EvPost _ _ _ o => answers_with S o
  | EvRun _ _ _ => true
  end.

(** The calls of the three git helpers and of the model. *)
Definition listing_argv (source target : string) : list string :=
  ["git"; "diff"; "--name-only"; target ++ ".." ++ source].

Definition diff_argv (source target path : string) : list string :=
  ["git"; "diff"; target ++ ".." ++ source; "--"; path].

Definition show_argv (branch path : string) : list string :=
  ["git"; "show"; branch ++ ":" ++ path].

(** The list comprehension of [_changed_files] on the output of git. *)
Definition paths_of_listing (out : string) : list string :=
  filter PyStr.truthy (map PyStr.strip (PyStr.splitlines out)).

(** A run that stops at the first answer that raises: with a value, no
    answer raised; with an exception, the last answer raised it and no
    earlier one raised. *)
Definition fail_fast {A : Type} (tr : list event) (r : result A) : Prop :=
  match r with
  | inr _ => forallb succeeded tr = true
  | inl e =>
      exists pre ev, tr = (pre ++ [ev])%list
                     /\ forallb succeeded pre = true
                     /\ event_error ev = Some e
  end.

(** ** A property of every path of a program *)

(** [io_paths R p]: whatever the collaborators answer, the events [tr]
    on the way to a leaf [a] of [p] satisfy [R tr a]. *)
Fixpoint io_paths {A : Type} (R : list event -> A -> Prop) (p : io A) : Prop :=
  match p with
  | Ret a => R [] a
  | SubprocessRun argv cwd k =>
      forall o, io_paths (fun tr a => R (EvRun argv cwd o :: tr) a) (k o)
  | RequestsPost url payload timeout k =>
      forall o, io_paths (fun tr a => R (EvPost url payload timeout o :: tr) a) (k o)
  end.

(** Two programs in step: they call the same collaborator at every
    step, whatever the arguments, and when they are answered alike all
    along they end with the same value or the same exception. *)
Fixpoint in_step {A : Type} (p1 p2 : io (result A * PRReviewBot)) : Prop :=
  match p1, p2 with
  | Ret x1, Ret x2 => fst x1 = fst x2
  | SubprocessRun _ _ k1, SubprocessRun _ _ k2 => forall o, in_step (k1 o) (k2 o)
  | RequestsPost _ _ _ k1, RequestsPost _ _ _ k2 => forall o, in_step (k1 o) (k2 o)
  | _, _ => False
  end.

(** ** Collaborators of the scenarios *)

Fixpoint argv_eqb (a b : list string) : bool :=
  match a, b with
  | [], [] => true
  | x :: a', y :: b' => String.eqb x y && argv_eqb a' b'
  | _, _ => false
  end.

(** A git that answers from a table of command lines; on any other
    command it exits with status 128, as git does on a bad revision. *)
Fixpoint table_lookup (argv : list string) (table : list (list string * run_outcome))
    : run_outcome :=
  match table with
  | [] => Exited 128 "" "fatal: bad revision"
  | (cmd, o) :: rest => if argv_eqb cmd argv then o else table_lookup argv rest
  end.

(** Collaborators without state: git from a table, and an endpoint that
    gives the same answer to every request. *)
Definition fixed (table : list (list string * run_outcome)) (reply : post_outcome)
    : Collaborators unit :=
  mkCollaborators
    (fun w argv _ => (table_lookup argv table, w))
    (fun w _ _ _ => (reply, w)).

(** Collaborators that read their answers from a script, in order. *)
Definition scripted : Collaborators (list response) :=
  mkCollaborators
    (fun w _ _ => match w with
                  | RunResponse o :: rest => (o, rest)
                  | _ => (SpawnError "script exhausted", w)
                  end)
    (fun w _ _ _ => match w with
                    | PostResponse o :: rest => (o, rest)
                    | _ => (ConnectionFailed, w)
                    end).

(** A 200 response whose object carries [text] as generated text. *)
Definition generated (text : string) : post_outcome :=
  Responded (mkResponse 200 (Some (JObject [("model", JString "llama3");
                                            ("response", JString text);
                                            ("done", JBool true)]))).

(** The repository of the test: [hello.py] changed on [feature]. *)
Definition hello_diff : string :=
  PyStr.join_nl
    [ "diff --git a/hello.py b/hello.py";
      "index 11b15b1..f7d1785 100644";
      "--- a/hello.py";
      "+++ b/hello.py";
      "@@ -1 +1 @@";
      "-print('hello')";
      "+print('hello world')";
      "" ].

Definition hello_repo : list (list string * run_outcome) :=
  [ (listing_argv "feature" "main", Exited 0 ("hello.py" ++ PyStr.nl) "");
    (diff_argv "feature" "main" "hello.py", Exited 0 hello_diff "");
    (show_argv "feature" "hello.py", Exited 0 ("print('hello world')" ++ PyStr.nl) "") ].

(** A repository where [feature] deletes [gone.py] and changes
    [hello.py]: git lists both, and cannot show the deleted one. *)
Definition gone_diff : string :=
  PyStr.join_nl
    [ "diff --git a/gone.py b/gone.py";
      "deleted file mode 100644";
      "index 11b15b1..0000000";
      "--- a/gone.py";
      "+++ /dev/null";
      "@@ -1 +0,0 @@";
      "-print('gone')";
      "" ].

Definition deleted_repo : list (list string * run_outcome) :=
  [ (listing_argv "feature" "main",
     Exited 0 ("gone.py" ++ PyStr.nl ++ "hello.py" ++ PyStr.nl) "");
    (diff_argv "feature" "main" "gone.py", Exited 0 gone_diff "");
    (show_argv "feature" "gone.py",
     Exited 128 "" "fatal: path 'gone.py' does not exist in 'feature'");
    (diff_argv "feature" "main" "hello.py", Exited 0 hello_diff "");
    (show_argv "feature" "hello.py", Exited 0 ("print('hello world')" ++ PyStr.nl) "") ].

(** Three changed files, and a model that answers each prompt with the
    path of its file, as a script of answers. *)
Definition three_files_script : list response :=
  [ RunResponse (Exited 0 (PyStr.join_nl ["a.py"; "b.py"; "c.py"; ""]) "");
    RunResponse (Exited 0 "diff of a" "");
    RunResponse (Exited 0 "content of a" "");
    PostResponse (generated "a.py");
    RunResponse (Exited 0 "diff of b" "");
    RunResponse (Exited 0 "content of b" "");
    PostResponse (generated "b.py");
    RunResponse (Exited 0 "diff of c" "");
    RunResponse (Exited 0 "content of c" "");
    PostResponse (generated "c.py") ].

(** A patch with an empty context line, which a unified diff writes as
    a single space. *)
Definition spaced_diff : string :=
  PyStr.join_nl
    [ "diff --git a/hello.py b/hello.py";
      "index 3b2aed8..0e5a1a2 100644";
      "--- a/hello.py";
      "+++ b/hello.py";
      "@@ -1,3 +1,3 @@";
      " import os";
      " ";
      "-print('hello')";
      "+print('hello world')";
      "" ].

Definition spaced_content : string :=
  PyStr.join_nl [ "import os"; ""; "print('hello world')"; "" ].

Arguments build_prompt : simpl never.
Arguments PyStr.splitlines : simpl never.
Arguments PyStr.strip : simpl never.

(** ** The script

    [argparse] and [json.dumps] are not modelled: the script is taken
    from its parsed arguments to the dict it prints. *)

Record Args : Type := mkArgs {
  arg_source : string;
  arg_target : string;
  arg_repo : string;
  arg_model : string;
  arg_endpoint : string
}.

(** [d[key] = value] on a dict, given as the list of its items in
    insertion order: a key that is there keeps its place and takes the
    new value, a new key goes last. *)
Fixpoint dict_set (key : string) (value : json) (d : list (string * json))
    : list (string * json) :=
  match d with
  | [] => [(key, value)]
  | (k, v) :: rest =>
      if String.eqb k key then (k, value) :: rest
      else (k, v) :: dict_set key value rest
  end.

(** [{r.path: r.comments for r in result}] *)
Definition output_of (result : list FileReview) : list (string * json) :=
  fold_left (fun d r => dict_set (path r) (comments r) d) result [].

(** The body of the script: the bot of the arguments, its review, and
    the dict of the reviews; an exception of [review] leaves the script. *)
Definition main (args : Args) : io (result json) :=
  let bot := mkBot (arg_repo args) (arg_model args) (arg_endpoint args) in
  io_bind (review (arg_source args) (arg_target args) bot)
    (fun rs => match fst rs with
               | inl e => Ret (inl e)
               | inr result => Ret (inr (JObject (output_of result)))
               end).

(** ** Shapes of the calls of a run *)

(** The calls [review] may make: [subprocess.run] on [git diff] and on
    [git show] in the repository of the bot, and [requests.post] of a
    non-streaming request for the model of the bot, with the endpoint
    of the bot as URL and a timeout of 300. *)
Definition expected_call (self : PRReviewBot) (ev : event) : Prop :=
  match ev with
  | EvRun argv cwd _ =>
      cwd = repo_path self
      /\ exists rest, argv = "git" :: "diff" :: rest \/ argv = "git" :: "show" :: rest
  | EvPost url payload timeout _ =>
      url = endpoint self /\ timeout = 300%Z
      /\ exists prompt, payload = request_payload (model self) prompt
  end.

(** The answers to the posts of a trace, in order. *)
Definition post_outcomes (tr : list event) : list post_outcome :=
  flat_map (fun ev => match ev with
                      | EvPost _ _ _ o => [o]
                      | EvRun _ _ _ => []
                      end) tr.

(** A post is fed by the two calls before it: they are the diff and the
    content of one path, both with exit status 0, and the prompt of the
    post is built from what they printed. *)
Definition fed_by (source target : string) (self : PRReviewBot)
    (before : list event) (ev : event) : Prop :=
  match ev with
  | EvRun _ _ _ => True
  | EvPost _ payload _ _ =>
      exists earlier p diff err1 content err2,
        before = (earlier ++
                  [EvRun (diff_argv source target p) (repo_path self) (Exited 0 diff err1);
                   EvRun (show_argv source p) (repo_path self) (Exited 0 content err2)])%list
        /\ payload = request_payload (model self)
                       (build_prompt p diff content source target)
  end.

Definition all_fed (source target : string) (self : PRReviewBot) (tr : list event) : Prop :=
  forall before ev after, tr = (before ++ ev :: after)%list ->
                          fed_by source target self before ev.

(** ** Shapes of text *)

(** No character of [s] is a line boundary. *)
Fixpoint one_line (s : string) : bool :=
  match s with
  | EmptyString => true
  | String c rest => negb (PyStr.is_linebreak c) && one_line rest
  end.

(** No line of [s] is made of spaces and tabs only, the empty lines
    apart. *)
Definition no_blank_lines (s : string) : bool :=
  forallb (fun l => negb (PyStr.whitespace_only l) || negb (PyStr.truthy l))
    (PyStr.split_nl s).

(** The line starts with a character that is no space and no tab. *)
Definition flush (line : string) : bool :=
  match line with
  | EmptyString => false
  | String c _ => negb (PyStr.is_blank c)
  end.

(** Some line of [s] after its first is flush. *)
Definition has_flush_line (s : string) : bool :=
  existsb flush (tl (PyStr.split_nl s)).

(** [f] on every line of [s]. *)
Definition map_lines (f : string -> string) (s : string) : string :=
  PyStr.join_nl (map f (PyStr.split_nl s)).

(** The parts of the text of the prompt around the content and the
    patch. *)
Definition prompt_header : string :=
  "You are an expert software engineer assisting with pull request reviews.".

Definition prompt_closing : string := "Provide your review now.".

Definition prompt_intro (file_path source target : string) : string :=
  PyStr.join_nl
    [ indent12 ++ "Compare two branches: " ++ target ++ " (base) and " ++ source ++ " (feature).";
      indent12 ++ "A developer has changed the file `" ++ file_path ++ "`. You are given the full";
      indent12 ++ "content of the file from the feature branch along with the diff patch";
      indent12 ++ "between the base and feature branch. Consider the entire file but limit";
      indent12 ++ "your comments strictly to lines that are part of the diff. Highlight";
      indent12 ++ "potential bugs, wrong logic, bad coding practices, and opportunities for";
      indent12 ++ "improvement. Be concise and reference line numbers from the patch when";
      indent12 ++ "possible.";
      "";
      indent12 ++ "<file_content>" ].

Definition prompt_between : string :=
  PyStr.join_nl [ indent12 ++ "</file_content>"; ""; indent12 ++ "<diff_patch>" ].

Definition prompt_end : string :=
  PyStr.join_nl [ indent12 ++ "</diff_patch>"; ""; indent12 ++ prompt_closing; indent12 ].

(** The line is empty, or has a character that is no space and no tab. *)
Definition clean_line (l : string) : bool :=
  negb (PyStr.whitespace_only l) || negb (PyStr.truthy l).

(** No character of [s] is a line feed. *)
Fixpoint no_lf (s : string) : bool :=
  match s with
  | EmptyString => true
  | String c rest => negb (Ascii.eqb c PyStr.LF) && no_lf rest
  end.

(** What [dedent] does to a line of the text of the prompt, whatever
    the margin: the empty line and the closing line of spaces become
    empty, an indented line keeps its text after the indentation, no
    line is left with spaces and tabs only, and no line feed appears. *)
Definition line_map (g : string -> string) : Prop :=
  g "" = ""
  /\ g indent12 = ""
  /\ (forall c s, PyStr.is_blank c = false ->
                  exists b, PyStr.whitespace_only b = true
                            /\ g (indent12 ++ String c s) = b ++ String c s)
  /\ (forall l, clean_line (g l) = true)
  /\ (forall l, no_lf l = true -> no_lf (g l) = true).

(** What git prints for a list of paths: one per line. *)
Definition listing_of (paths : list string) : string :=
  fold_right (fun p rest => p ++ PyStr.nl ++ rest) "" paths.

(** ** Python text *)

Module PyStrFacts.
Import PyStr.

Example splitlines_listing :
  splitlines (join_nl ["a.py"; ""; "  b.py "; ""]) = ["a.py"; ""; "  b.py "].
Proof. reflexivity. Qed.

Example splitlines_crlf : splitlines ("a" ++ String CR nl ++ "b") = ["a"; "b"].
Proof. reflexivity. Qed.

Example strip_both_sides : strip ("  a b " ++ nl) = "a b".
Proof. reflexivity. Qed.

Example paths_of_listing_skips_blank_lines :
  paths_of_listing (join_nl ["a.py"; ""; "  b.py "; ""]) = ["a.py"; "b.py"].
Proof. reflexivity. Qed.

Example dedent_removes_common_margin :
  dedent (join_nl ["    def f():"; "        return 1"; "   "; ""])
  = join_nl ["def f():"; "    return 1"; ""; ""].
Proof. reflexivity. Qed.

Example dedent_keeps_text_with_a_line_at_column_0 :
  dedent (join_nl ["    indented"; "flush"; " "]) = join_nl ["    indented"; "flush"; ""].
Proof. reflexivity. Qed.

Lemma append_assoc (a b c : string) : (a ++ b) ++ c = a ++ b ++ c.
Proof. induction a as [ | x a IH]; simpl; [ reflexivity | now rewrite IH ]. Qed.

Lemma prefix_iff (a b : string) :
  String.prefix a b = true <-> exists post, b = a ++ post.
Proof.
  revert b. induction a as [ | x a IH]; intros b.
  - destruct b; (split; [ intros _; eexists; reflexivity | reflexivity ]).
  - destruct b as [ | y b].
    + split; [ discriminate | intros [post H]; discriminate ].
    + change (String.prefix (String x a) (String y b))
        with (if ascii_dec x y then String.prefix a b else false).
      destruct (ascii_dec x y) as [-> | Hxy].
      * rewrite IH. split; intros [post H]; exists post; simpl in *; congruence.
      * split; [ discriminate | intros [post H]; simpl in H; congruence ].
Qed.

(** [contains] decides [substring]. *)
Lemma contains_iff (hay needle : string) :
  contains hay needle = true <-> substring needle hay.
Proof.
  induction hay as [ | c rest IH]; cbn [contains].
  - rewrite orb_false_r, prefix_iff. split.
    + intros [post H]. now exists "", post.
    + intros ([ | x pre] & post & H); [ now exists post | discriminate ].
  - rewrite orb_true_iff, prefix_iff, IH. split.
    + intros [[post H] | (pre & post & H)].
      * now exists "", post.
      * exists (String c pre), post. simpl. now rewrite H.
    + intros ([ | x pre] & post & H).
      * left. now exists post.
      * right. exists pre, post. simpl in H. congruence.
Qed.

Lemma substring_here (d post : string) : substring d (d ++ post).
Proof. now exists "", post. Qed.

Lemma substring_skip (d x y : string) : substring d y -> substring d (x ++ y).
Proof. intros (pre & post & ->). exists (x ++ pre), post. now rewrite append_assoc. Qed.

End PyStrFacts.

(** The text that [_analyze] hands to [textwrap.dedent] holds the
    content, the patch, both refs and the path as they came. *)
Lemma prompt_text_embeds (file_path diff full_content source target : string) :
  PyStr.substring full_content (prompt_text file_path diff full_content source target)
  /\ PyStr.substring diff (prompt_text file_path diff full_content source target)
  /\ PyStr.substring source (prompt_text file_path diff full_content source target)
  /\ PyStr.substring target (prompt_text file_path diff full_content source target)
  /\ PyStr.substring file_path (prompt_text file_path diff full_content source target).
Proof.
  unfold prompt_text, PyStr.join_nl. cbn [String.concat].
  repeat rewrite PyStrFacts.append_assoc.
  repeat split;
    repeat first [ apply PyStrFacts.substring_here | apply PyStrFacts.substring_skip ].
Qed.

(** ** Rules for [io_paths] *)

Section Paths.

Context {A : Type}.

Lemma io_paths_weaken (p : io A) :
  forall (Q R : list event -> A -> Prop),
    (forall tr a, Q tr a -> R tr a) -> io_paths Q p -> io_paths R p.
Proof.
  induction p as [a | argv cwd k IH | url payload timeout k IH];
    intros Q R HQR HQ; simpl in *.
  - now apply HQR.
  - intro o. eapply IH; [ | apply HQ ]. intros tr a. apply HQR.
  - intro o. eapply IH; [ | apply HQ ]. intros tr a. apply HQR.
Qed.

Lemma io_paths_exec {W : Type} (C : Collaborators W) (p : io A) :
  forall (R : list event -> A -> Prop) (w : W),
    io_paths R p -> R (trace (exec C p w)) (outcome (exec C p w)).
Proof.
  induction p as [a | argv cwd k IH | url payload timeout k IH];
    intros R w HR; simpl in *.
  - exact HR.
  - destruct (git_process C w argv cwd) as [o w']. simpl.
    apply (IH o (fun tr a => R (EvRun argv cwd o :: tr) a)). apply HR.
  - destruct (http_server C w url payload timeout) as [o w']. simpl.
    apply (IH o (fun tr a => R (EvPost url payload timeout o :: tr) a)). apply HR.
Qed.

End Paths.

Lemma io_paths_bind {A B : Type} (m : M A) (f : A -> M B) (self : PRReviewBot) :
  forall (Q : list event -> result A * PRReviewBot -> Prop)
         (R : list event -> result B * PRReviewBot -> Prop),
    io_paths Q (m self) ->
    (forall tr e s, Q tr (inl e, s) -> R tr (inl e, s)) ->
    (forall tr a s, Q tr (inr a, s) ->
                    io_paths (fun tr' x => R (tr ++ tr')%list x) (f a s)) ->
    io_paths R (bind m f self).
Proof.
  unfold bind. generalize (m self) as p.
  induction p as [[r s] | argv cwd k IH | url payload timeout k IH];
    intros Q R HQ Herr Hok; simpl in *.
  - destruct r as [e | a].
    + simpl. rewrite <- (app_nil_r []). now apply Herr.
    + now apply (Hok [] a s).
  - intro o. eapply IH; [ apply HQ | | ].
    + intros tr e s. apply Herr.
    + intros tr a s Ha. now apply (Hok (EvRun argv cwd o :: tr)).
  - intro o. eapply IH; [ apply HQ | | ].
    + intros tr e s. apply Herr.
    + intros tr a s Ha. now apply (Hok (EvPost url payload timeout o :: tr)).
Qed.

(** The helpers make one call each, and return what its answer says. *)
Lemma run_git_paths (args : list string) (self : PRReviewBot)
    (R : list event -> result string * PRReviewBot -> Prop) :
  (forall o, R [EvRun ("git" :: args) (repo_path self) o]
               (git_stdout ("git" :: args) o, self)) ->
  io_paths R (_run_git args self).
Proof.
  intros H. simpl. intro o. specialize (H o). unfold git_stdout in H.
  destruct (completed ("git" :: args) o); exact H.
Qed.

Lemma call_model_paths (prompt : string) (self : PRReviewBot)
    (R : list event -> result json * PRReviewBot -> Prop) :
  (forall o, R [EvPost (endpoint self) (request_payload (model self) prompt) 300 o]
               (model_reply o, self)) ->
  io_paths R (_call_model prompt self).
Proof.
  intros H. simpl. intro o. specialize (H o).
  destruct o as [[status body] | | | reason]; simpl in *; try exact H.
  unfold raise_for_status. simpl.
  destruct (error_status status); simpl; [ exact H | ].
  destruct body as [ [ | | | | | members ] | ]; simpl; exact H.
Qed.

Lemma run_git_run {W : Type} (C : Collaborators W) (self : PRReviewBot)
    (args : list string) (w : W) :
  fst (outcome (exec C (_run_git args self) w))
  = git_stdout ("git" :: args) (fst (git_process C w ("git" :: args) (repo_path self))).
Proof.
  unfold _run_git, bind, getattr, subprocess_run, ret, git_stdout.
  cbn [exec io_bind fst snd].
  destruct (git_process C w ("git" :: args) (repo_path self)) as [o w'].
  cbn [fst]. destruct (completed ("git" :: args) o); reflexivity.
Qed.

(** One round of the loop of [review]: three calls, each of which may
    raise, then the rest of the files. *)
Lemma review_loop_step (source target path : string) (rest : list string)
    (reviews : list FileReview) (self : PRReviewBot)
    (R : list event -> result (list FileReview) * PRReviewBot -> Prop) :
  (forall o1,
      let e1 := EvRun (diff_argv source target path) (repo_path self) o1 in
      match git_stdout (diff_argv source target path) o1 with
      | inl e => R [e1] (inl e, self)
      | inr diff =>
          forall o2,
            let e2 := EvRun (show_argv source path) (repo_path self) o2 in
            match git_stdout (show_argv source path) o2 with
            | inl e => R [e1; e2] (inl e, self)
            | inr content =>
                forall o3,
                  let e3 := EvPost (endpoint self)
                              (request_payload (model self)
                                 (build_prompt path diff content source target))
                              300 o3 in
                  match model_reply o3 with
                  | inl e => R [e1; e2; e3] (inl e, self)
                  | inr comments =>
                      io_paths (fun tr x => R (e1 :: e2 :: e3 :: tr) x)
                        (review_loop source target rest
                           (reviews ++ [mkFileReview path comments])%list self)
                  end
            end
      end) ->
  io_paths R (review_loop source target (path :: rest) reviews self).
Proof.
  intros H.
  change (review_loop source target (path :: rest) reviews) with
    (diff <- _file_diff source target path ;;
     content <- _file_content source path ;;
     comments <- _analyze path diff content source target ;;
     review_loop source target rest (reviews ++ [mkFileReview path comments])%list).
  eapply io_paths_bind.
  - apply run_git_paths with
      (R := fun tr x => exists o1,
                tr = [EvRun (diff_argv source target path) (repo_path self) o1]
                /\ x = (git_stdout (diff_argv source target path) o1, self)).
    intro o1. now exists o1.
  - intros tr e s (o1 & -> & Hx). specialize (H o1). simpl in H.
    injection Hx as Hx ->. now rewrite <- Hx in H.
  - intros tr diff s (o1 & -> & Hx). specialize (H o1). simpl in H.
    injection Hx as Hx ->. rewrite <- Hx in H.
    eapply io_paths_bind.
    + apply run_git_paths with
        (R := fun tr x => exists o2,
                  tr = [EvRun (show_argv source path) (repo_path self) o2]
                  /\ x = (git_stdout (show_argv source path) o2, self)).
      intro o2. now exists o2.
    + intros tr e s (o2 & -> & Hy). specialize (H o2).
      injection Hy as Hy ->. now rewrite <- Hy in H.
    + intros tr content s (o2 & -> & Hy). specialize (H o2).
      injection Hy as Hy ->. rewrite <- Hy in H.
      eapply io_paths_bind.
      * apply call_model_paths with
          (R := fun tr x => exists o3,
                    tr = [EvPost (endpoint self)
                            (request_payload (model self)
                               (build_prompt path diff content source target))
                            300 o3]
                    /\ x = (model_reply o3, self)).
        intro o3. now exists o3.
      * intros tr e s (o3 & -> & Hz). specialize (H o3).
        injection Hz as Hz ->. now rewrite <- Hz in H.
      * intros tr comments s (o3 & -> & Hz). specialize (H o3).
        injection Hz as Hz ->. rewrite <- Hz in H. exact H.
Qed.

(** [review]: the listing, then the loop on the paths it gave. *)
Lemma review_paths (source target : string) (self : PRReviewBot)
    (R : list event -> result (list FileReview) * PRReviewBot -> Prop) :
  (forall o,
      let e0 := EvRun (listing_argv source target) (repo_path self) o in
      match git_stdout (listing_argv source target) o with
      | inl e => R [e0] (inl e, self)
      | inr out =>
          io_paths (fun tr x => R (e0 :: tr) x)
            (review_loop source target (paths_of_listing out) [] self)
      end) ->
  io_paths R (review source target self).
Proof.
  intros H. simpl. intro o. specialize (H o). simpl in H.
  unfold git_stdout, listing_argv in H.
  destruct (completed _ o) as [e | p]; simpl; exact H.
Qed.

(** ** Stopping at the first error *)

Lemma run_error (argv : list string) (cwd : string) (o : run_outcome) (e : exn) :
  git_stdout argv o = inl e -> event_error (EvRun argv cwd o) = Some e.
Proof. intros H. simpl. now rewrite H. Qed.

Lemma run_succeeded (argv : list string) (cwd : string) (o : run_outcome) (out : string) :
  git_stdout argv o = inr out -> succeeded (EvRun argv cwd o) = true.
Proof. intros H. unfold succeeded. simpl. now rewrite H. Qed.

Lemma post_error (url : string) (payload : json) (timeout : Z) (o : post_outcome) (e : exn) :
  model_reply o = inl e -> event_error (EvPost url payload timeout o) = Some e.
Proof. intros H. simpl. now rewrite H. Qed.

Lemma post_succeeded (url : string) (payload : json) (timeout : Z) (o : post_outcome)
    (v : json) :
  model_reply o = inr v -> succeeded (EvPost url payload timeout o) = true.
Proof. intros H. unfold succeeded. simpl. now rewrite H. Qed.

Lemma fail_fast_raise {A : Type} (pre mid : list event) (ev : event) (e : exn) :
  forallb succeeded pre = true -> forallb succeeded mid = true ->
  event_error ev = Some e ->
  fail_fast (A := A) (pre ++ mid ++ [ev]) (inl e).
Proof.
  intros Hpre Hmid Hev. exists (pre ++ mid)%list, ev.
  now rewrite app_assoc, forallb_app, Hpre, Hmid.
Qed.

(** In a run that stops at the first error, an answer that raises is the
    last one, and its exception is the result. *)
Lemma fail_fast_last {A : Type} (tr : list event) (r : result A) :
  fail_fast tr r ->
  forall pre ev post e,
    tr = (pre ++ ev :: post)%list -> event_error ev = Some e ->
    post = [] /\ r = inl e.
Proof.
  intros Hff pre ev post e Htr Hev.
  assert (Hbad : succeeded ev = false) by (unfold succeeded; now rewrite Hev).
  destruct r as [e' | a]; simpl in Hff.
  - destruct Hff as (pre' & ev' & Htr' & Hpre' & Hev').
    rewrite Htr in Htr'. clear Htr. revert pre' Hpre' Htr'.
    induction pre as [ | x pre IH]; intros [ | y pre'] Hpre' Heq; simpl in *.
    + injection Heq as -> ->. split; [ reflexivity | congruence ].
    + injection Heq as -> _. apply andb_prop in Hpre' as [Hy _]. congruence.
    + injection Heq as _ Heq. now destruct pre.
    + injection Heq as -> Heq. apply andb_prop in Hpre' as [_ Hpre'].
      now apply (IH pre').
  - subst tr. rewrite forallb_app in Hff. simpl in Hff.
    apply andb_prop in Hff as [_ Hff]. apply andb_prop in Hff as [Hff _].
    congruence.
Qed.

Lemma review_loop_fail_fast (source target : string) (files : list string) :
  forall (reviews : list FileReview) (self : PRReviewBot) (pre : list event),
    forallb succeeded pre = true ->
    io_paths (fun tr x => fail_fast (pre ++ tr) (fst x))
      (review_loop source target files reviews self).
Proof.
  induction files as [ | path rest IH]; intros reviews self pre Hpre.
  - simpl. now rewrite app_nil_r.
  - apply review_loop_step. intro o1. cbv zeta.
    destruct (git_stdout (diff_argv source target path) o1) as [e | diff] eqn:E1.
    { apply (fail_fast_raise pre []); [ exact Hpre | reflexivity | now apply run_error ]. }
    assert (S1 := run_succeeded _ (repo_path self) _ _ E1).
    intro o2.
    destruct (git_stdout (show_argv source path) o2) as [e | content] eqn:E2.
    { apply (fail_fast_raise pre [_]); [ exact Hpre | | now apply run_error ].
      simpl. now rewrite S1. }
    assert (S2 := run_succeeded _ (repo_path self) _ _ E2).
    intro o3.
    destruct (model_reply o3) as [e | comments] eqn:E3.
    { apply (fail_fast_raise pre [_; _]); [ exact Hpre | | now apply post_error ].
      simpl. now rewrite S1, S2. }
    eapply io_paths_weaken;
      [ | apply (IH _ self
                   (pre ++ [EvRun (diff_argv source target path) (repo_path self) o1;
                            EvRun (show_argv source path) (repo_path self) o2;
                            EvPost (endpoint self)
                              (request_payload (model self)
                                 (build_prompt path diff content source target))
                              300 o3])%list) ].
    + intros tr x. cbv beta. rewrite <- app_assoc. simpl. intro H. exact H.
    + rewrite forallb_app, Hpre. simpl.
      now rewrite S1, S2, (post_succeeded _ _ _ _ _ E3).
Qed.

Lemma review_fail_fast {W : Type} (C : Collaborators W) (self : PRReviewBot)
    (source target : string) (w : W) :
  fail_fast (trace (run_review C self source target w))
    (fst (outcome (run_review C self source target w))).
Proof.
  unfold run_review.
  apply (io_paths_exec C _ (fun tr x => fail_fast tr (fst x))).
  apply review_paths. intro o. cbv zeta.
  destruct (git_stdout (listing_argv source target) o) as [e | out] eqn:E0.
  - apply (fail_fast_raise [] []); [ reflexivity | reflexivity | now apply run_error ].
  - apply (review_loop_fail_fast source target _ [] self [_]).
    simpl. now rewrite (run_succeeded _ _ _ _ E0).
Qed.

Lemma git_error_kind (argv : list string) (o : run_outcome) (e : exn) :
  git_stdout argv o = inl e -> kind_of e = VcsError.
Proof.
  unfold git_stdout, completed.
  destruct o as [rc out err | msg]; [ destruct (rc =? 0)%Z | ];
    intros H; inversion H; reflexivity.
Qed.

(** The run of [review]: the listing, then the loop on its paths. *)
Lemma run_review_unfold {W : Type} (C : Collaborators W) (self : PRReviewBot)
    (source target : string) (w : W) :
  run_review C self source target w
  = let (o, w') := git_process C w (listing_argv source target) (repo_path self) in
    let e0 := EvRun (listing_argv source target) (repo_path self) o in
    match git_stdout (listing_argv source target) o with
    | inl e => mkRun (inl e, self) w' [e0]
    | inr out =>
        let r := exec C (review_loop source target (paths_of_listing out) [] self) w' in
        mkRun (outcome r) (world r) (e0 :: trace r)
    end.
Proof.
  unfold run_review, review, _changed_files, _run_git, bind, getattr,
    subprocess_run, ret, git_stdout, paths_of_listing.
  cbn [exec io_bind fst snd].
  change ("git" :: "diff" :: "--name-only" :: (target ++ ".." ++ source) :: nil)
    with (listing_argv source target).
  destruct (git_process C w (listing_argv source target) (repo_path self)) as [o w'].
  destruct (completed (listing_argv source target) o) as [e | p];
    cbn [exec io_bind fst snd outcome world trace]; reflexivity.
Qed.

(** C3: an answer of a collaborator that raises, during the listing or
    for any file, is the last call of [review], and [review] ends with
    that exception instead of a list of reviews. *)
Theorem review_aborts_on_first_error {W : Type} (C : Collaborators W)
    (self : PRReviewBot) (source target : string) (w : W)
    (pre post : list event) (ev : event) (e : exn) :
  trace (run_review C self source target w) = (pre ++ ev :: post)%list ->
  event_error ev = Some e ->
  post = [] /\ fst (outcome (run_review C self source target w)) = inl e.
Proof.
  intros Htr Hev.
  exact (fail_fast_last _ _ (review_fail_fast C self source target w)
           pre ev post e Htr Hev).
Qed.

Lemma review_aborts_on_first_error_witness :
  fst (outcome (run_review (fixed hello_repo TimedOut) default_bot "feature" "main" tt))
  = inl Timeout.
Proof.
  refine (proj2 (review_aborts_on_first_error
                   (fixed hello_repo TimedOut) default_bot "feature" "main" tt
                   [EvRun (listing_argv "feature" "main") "."
                      (Exited 0 ("hello.py" ++ PyStr.nl) "");
                    EvRun (diff_argv "feature" "main" "hello.py") "."
                      (Exited 0 hello_diff "");
                    EvRun (show_argv "feature" "hello.py") "."
                      (Exited 0 ("print('hello world')" ++ PyStr.nl) "")]
                   []
                   (EvPost (endpoint default_bot)
                      (request_payload "llama3"
                         (build_prompt "hello.py" hello_diff
                            ("print('hello world')" ++ PyStr.nl) "feature" "main"))
                      300 TimedOut)
                   Timeout _ _)).
  - vm_compute. reflexivity.
  - reflexivity.
Defined.

(** C2, as the code has it: when [git show] fails for a file, [review]
    ends there with that error of the version-control family; no later
    call is made and no list of reviews is returned. *)
Theorem content_failure_aborts_review {W : Type} (C : Collaborators W)
    (self : PRReviewBot) (source target path cwd : string) (w : W)
    (pre post : list event) (o : run_outcome) (e : exn) :
  trace (run_review C self source target w)
  = (pre ++ EvRun (show_argv source path) cwd o :: post)%list ->
  git_stdout (show_argv source path) o = inl e ->
  kind_of e = VcsError
  /\ post = []
  /\ fst (outcome (run_review C self source target w)) = inl e.
Proof.
  intros Htr Ho. split.
  - exact (git_error_kind _ _ _ Ho).
  - exact (fail_fast_last _ _ (review_fail_fast C self source target w)
             pre _ post e Htr (run_error _ cwd _ _ Ho)).
Qed.

Lemma content_failure_aborts_review_witness :
  kind_of (CalledProcessError 128 (show_argv "feature" "gone.py") ""
             "fatal: path 'gone.py' does not exist in 'feature'") = VcsError
  /\ ([] : list event) = []
  /\ fst (outcome (run_review (fixed deleted_repo (generated "Looks fine."))
                     default_bot "feature" "main" tt))
     = inl (CalledProcessError 128 (show_argv "feature" "gone.py") ""
              "fatal: path 'gone.py' does not exist in 'feature'").
Proof.
  apply (content_failure_aborts_review
           (fixed deleted_repo (generated "Looks fine.")) default_bot
           "feature" "main" "gone.py" "." tt
           [EvRun (listing_argv "feature" "main") "."
              (Exited 0 ("gone.py" ++ PyStr.nl ++ "hello.py" ++ PyStr.nl) "");
            EvRun (diff_argv "feature" "main" "gone.py") "." (Exited 0 gone_diff "")]
           []
           (Exited 128 "" "fatal: path 'gone.py' does not exist in 'feature'")).
  - vm_compute. reflexivity.
  - reflexivity.
Defined.

(** C2 fails on the code: [gone.py] is deleted on [feature], git cannot
    show it, and [review] raises after three git calls, none of them for
    [hello.py], the file that was left, and without any call to the model. *)
Lemma content_failure_stops_the_batch :
  let r := run_review (fixed deleted_repo (generated "Looks fine."))
             default_bot "feature" "main" tt in
  fst (outcome r)
  = inl (CalledProcessError 128 (show_argv "feature" "gone.py") ""
           "fatal: path 'gone.py' does not exist in 'feature'")
  /\ trace r
     = [EvRun (listing_argv "feature" "main") "."
          (Exited 0 ("gone.py" ++ PyStr.nl ++ "hello.py" ++ PyStr.nl) "");
        EvRun (diff_argv "feature" "main" "gone.py") "." (Exited 0 gone_diff "");
        EvRun (show_argv "feature" "gone.py") "."
          (Exited 128 "" "fatal: path 'gone.py' does not exist in 'feature'")]
  /\ model_calls (trace r) = 0.
Proof. vm_compute. repeat split. Qed.

(** C4: when the listing fails, for a non-zero exit status or because
    git could not be run at all, [review] raises that error of the
    version-control family after this one call, and the model is never
    called. *)
Theorem listing_failure_raises_vcs_error {W : Type} (C : Collaborators W)
    (self : PRReviewBot) (source target : string) (w w' : W)
    (o : run_outcome) (e : exn) :
  git_process C w (listing_argv source target) (repo_path self) = (o, w') ->
  git_stdout (listing_argv source target) o = inl e ->
  fst (outcome (run_review C self source target w)) = inl e
  /\ kind_of e = VcsError
  /\ trace (run_review C self source target w)
     = [EvRun (listing_argv source target) (repo_path self) o]
  /\ model_calls (trace (run_review C self source target w)) = 0.
Proof.
  intros Hgit Ho. assert (Hk := git_error_kind _ _ _ Ho).
  rewrite run_review_unfold, Hgit. cbv zeta. rewrite Ho.
  repeat split. exact Hk.
Qed.

Lemma listing_failure_raises_vcs_error_witness :
  let r := run_review (fixed [] (generated "unused")) default_bot "feature" "nowhere" tt in
  fst (outcome r)
  = inl (CalledProcessError 128 (listing_argv "feature" "nowhere") "" "fatal: bad revision")
  /\ kind_of (CalledProcessError 128 (listing_argv "feature" "nowhere") ""
                "fatal: bad revision") = VcsError
  /\ trace r = [EvRun (listing_argv "feature" "nowhere") "."
                  (Exited 128 "" "fatal: bad revision")]
  /\ model_calls (trace r) = 0.
Proof.
  apply (listing_failure_raises_vcs_error
           (fixed [] (generated "unused")) default_bot "feature" "nowhere" tt tt);
    reflexivity.
Defined.

(** C5: when the listing succeeds and names no file, [review] returns
    the empty list; the listing is its only call, so that no diff and no
    content is fetched and the model is never called. *)
Theorem empty_changeset_returns_nothing {W : Type} (C : Collaborators W)
    (self : PRReviewBot) (source target : string) (w w' : W)
    (o : run_outcome) (out : string) :
  git_process C w (listing_argv source target) (repo_path self) = (o, w') ->
  git_stdout (listing_argv source target) o = inr out ->
  paths_of_listing out = [] ->
  fst (outcome (run_review C self source target w)) = inr []
  /\ trace (run_review C self source target w)
     = [EvRun (listing_argv source target) (repo_path self) o]
  /\ model_calls (trace (run_review C self source target w)) = 0.
Proof.
  intros Hgit Ho Hnone.
  rewrite run_review_unfold, Hgit. cbv zeta. rewrite Ho, Hnone.
  repeat split.
Qed.

Lemma empty_changeset_returns_nothing_witness :
  let C := fixed [(listing_argv "main" "main", Exited 0 PyStr.nl "")] (generated "unused") in
  fst (outcome (run_review C default_bot "main" "main" tt)) = inr []
  /\ trace (run_review C default_bot "main" "main" tt)
     = [EvRun (listing_argv "main" "main") "." (Exited 0 PyStr.nl "")]
  /\ model_calls (trace (run_review C default_bot "main" "main" tt)) = 0.
Proof.
  apply (empty_changeset_returns_nothing
           (fixed [(listing_argv "main" "main", Exited 0 PyStr.nl "")] (generated "unused"))
           default_bot "main" "main" tt tt (Exited 0 PyStr.nl "") PyStr.nl);
    reflexivity.
Defined.

(** ** One review per changed file *)

Lemma review_loop_paths_in_order (source target : string) (files : list string) :
  forall (reviews : list FileReview) (self : PRReviewBot),
    io_paths (fun _ x => forall rs, fst x = inr rs ->
                                    map path rs = (map path reviews ++ files)%list)
      (review_loop source target files reviews self).
Proof.
  induction files as [ | p rest IH]; intros reviews self.
  - simpl. intros rs H. injection H as <-. now rewrite app_nil_r.
  - apply review_loop_step. intro o1. cbv zeta.
    destruct (git_stdout (diff_argv source target p) o1) as [e | diff];
      [ discriminate | ].
    intro o2.
    destruct (git_stdout (show_argv source p) o2) as [e | content];
      [ discriminate | ].
    intro o3.
    destruct (model_reply o3) as [e | text]; [ discriminate | ].
    eapply io_paths_weaken; [ | apply IH ].
    intros tr x H rs Hrs. cbv beta in H.
    rewrite (H rs Hrs), map_app, <- app_assoc. reflexivity.
Qed.

Lemma changed_files_run {W : Type} (C : Collaborators W) (self : PRReviewBot)
    (source target : string) (w : W) :
  fst (outcome (exec C (_changed_files source target self) w))
  = match git_stdout (listing_argv source target)
            (fst (git_process C w (listing_argv source target) (repo_path self))) with
    | inl e => inl e
    | inr out => inr (paths_of_listing out)
    end.
Proof.
  unfold _changed_files, _run_git, bind, getattr, subprocess_run, ret, git_stdout,
    paths_of_listing.
  cbn [exec io_bind fst snd].
  change ("git" :: "diff" :: "--name-only" :: (target ++ ".." ++ source) :: nil)
    with (listing_argv source target).
  destruct (git_process C w (listing_argv source target) (repo_path self)) as [o w'].
  cbn [fst].
  destruct (completed (listing_argv source target) o) as [e | p];
    cbn [exec io_bind fst snd outcome]; reflexivity.
Qed.

(** C1: when [review] returns, the paths of its reviews are the changed
    files that [_changed_files] reported, one review per file and in the
    same order; and it does return when no answer of a collaborator
    raised. *)
Theorem review_one_per_changed_file {W : Type} (C : Collaborators W)
    (self : PRReviewBot) (source target : string) (w : W) (files : list string) :
  fst (outcome (exec C (_changed_files source target self) w)) = inr files ->
  (forall rs, fst (outcome (run_review C self source target w)) = inr rs ->
              map path rs = files /\ List.length rs = List.length files)
  /\ (forallb succeeded (trace (run_review C self source target w)) = true ->
      exists rs, fst (outcome (run_review C self source target w)) = inr rs).
Proof.
  intros Hfiles. split.
  - intros rs Hrs.
    assert (Hmap : map path rs = files).
    { rewrite changed_files_run in Hfiles. rewrite run_review_unfold in Hrs.
      destruct (git_process C w (listing_argv source target) (repo_path self))
        as [o w'].
      cbn [fst] in Hfiles. cbv zeta in Hrs.
      destruct (git_stdout (listing_argv source target) o) as [e | out];
        [ discriminate | ].
      injection Hfiles as <-. cbn [outcome] in Hrs.
      exact (io_paths_exec C _ _ w'
               (review_loop_paths_in_order source target _ [] self) rs Hrs). }
    split; [ exact Hmap | ]. rewrite <- Hmap. symmetry. apply length_map.
  - intros Hok.
    assert (Hff := review_fail_fast C self source target w).
    destruct (fst (outcome (run_review C self source target w))) as [e | rs].
    + destruct Hff as (pre & ev & Htr & _ & Hev). rewrite Htr in Hok.
      rewrite forallb_app in Hok. apply andb_prop in Hok as [_ Hok].
      simpl in Hok. unfold succeeded in Hok. rewrite Hev in Hok. discriminate.
    + now exists rs.
Qed.

Lemma review_one_per_changed_file_witness :
  map path [mkFileReview "hello.py" (JString "stub response")] = ["hello.py"]
  /\ List.length [mkFileReview "hello.py" (JString "stub response")]
     = List.length ["hello.py"].
Proof.
  apply (proj1 (review_one_per_changed_file
                  (fixed hello_repo (generated "stub response")) default_bot
                  "feature" "main" tt ["hello.py"] eq_refl)).
  vm_compute. reflexivity.
Defined.

(** ** A model that always says the same *)

Lemma answers_with_reply (S : string) (o : post_outcome) :
  answers_with S o = true -> model_reply o = inr (JString S).
Proof.
  destruct o as [[status body] | | | reason]; simpl; try discriminate.
  intros H. apply andb_prop in H as [Hstatus Hbody].
  apply andb_prop in Hstatus as [Hlo Hhi].
  apply Z.leb_le in Hlo. apply Z.ltb_lt in Hhi.
  unfold error_status.
  replace (400 <=? status)%Z with false by (symmetry; apply Z.leb_gt; lia).
  simpl.
  destruct body as [ [ | | | | | members ] | ]; try discriminate.
  destruct (lookup "response" members) as [ [ | | | s | | ] | ]; try discriminate.
  apply String.eqb_eq in Hbody. now subst s.
Qed.

Lemma review_loop_says (S : string) (source target : string) (files : list string) :
  forall (reviews : list FileReview) (self : PRReviewBot),
    io_paths (fun tr x =>
                forallb (model_says S) tr = true ->
                Forall (fun fr => comments fr = JString S) reviews ->
                match fst x with
                | inl e => kind_of e = VcsError
                | inr rs => Forall (fun fr => comments fr = JString S) rs
                end)
      (review_loop source target files reviews self).
Proof.
  induction files as [ | p rest IH]; intros reviews self.
  - simpl. intros _ Hreviews. exact Hreviews.
  - apply review_loop_step. intro o1. cbv zeta.
    destruct (git_stdout (diff_argv source target p) o1) as [e | diff] eqn:E1.
    { intros _ _. exact (git_error_kind _ _ _ E1). }
    intro o2.
    destruct (git_stdout (show_argv source p) o2) as [e | content] eqn:E2.
    { intros _ _. exact (git_error_kind _ _ _ E2). }
    intro o3.
    destruct (model_reply o3) as [e | text] eqn:E3.
    { intros H _. simpl in H. apply andb_prop in H as [H _].
      apply answers_with_reply in H. congruence. }
    eapply io_paths_weaken; [ | apply (IH (reviews ++ [mkFileReview p text])%list self) ].
    intros tr x H Hsays Hreviews. cbv beta in H. simpl in Hsays.
    apply andb_prop in Hsays as [Ho3 Hsays].
    apply answers_with_reply in Ho3.
    apply H; [ exact Hsays | ].
    apply Forall_app. split; [ exact Hreviews | ].
    constructor; [ simpl; congruence | constructor ].
Qed.

(** C6: when every answer of the model in a run of [review] carries the
    same generated text [S], [review] either ends with an error of the
    version-control family or returns reviews whose comments are all
    exactly [S], whatever git printed as diffs and contents. *)
Theorem fixed_model_text_passes_through {W : Type} (C : Collaborators W)
    (self : PRReviewBot) (source target : string) (w : W) (S : string) :
  forallb (model_says S) (trace (run_review C self source target w)) = true ->
  match fst (outcome (run_review C self source target w)) with
  | inl e => kind_of e = VcsError
  | inr rs => Forall (fun fr => comments fr = JString S) rs
  end.
Proof.
  intros Hsays.
  refine (io_paths_exec C _
            (fun tr x => forallb (model_says S) tr = true ->
                         match fst x with
                         | inl e => kind_of e = VcsError
                         | inr rs => Forall (fun fr => comments fr = JString S) rs
                         end) w _ Hsays).
  apply review_paths. intro o. cbv zeta.
  destruct (git_stdout (listing_argv source target) o) as [e | out] eqn:E0.
  - intros _. exact (git_error_kind _ _ _ E0).
  - eapply io_paths_weaken; [ | apply (review_loop_says S source target _ [] self) ].
    intros tr x H Htr. cbv beta in H. simpl in Htr. apply H; [ exact Htr | constructor ].
Qed.

Lemma fixed_model_text_passes_through_witness :
  Forall (fun fr => comments fr = JString "stub response")
    [mkFileReview "hello.py" (JString "stub response")].
Proof.
  exact (fixed_model_text_passes_through
           (fixed hello_repo (generated "stub response")) default_bot
           "feature" "main" tt "stub response" eq_refl).
Defined.

(** ** The call to the model *)

Lemma call_model_run {W : Type} (C : Collaborators W) (self : PRReviewBot)
    (prompt : string) (w : W) :
  fst (outcome (exec C (_call_model prompt self) w))
  = model_reply (fst (http_server C w (endpoint self)
                        (request_payload (model self) prompt) 300)).
Proof.
  pose proof (io_paths_exec C (_call_model prompt self)
                (fun tr x => exists o,
                     tr = [EvPost (endpoint self)
                             (request_payload (model self) prompt) 300 o]
                     /\ fst x = model_reply o) w) as H.
  destruct H as (o & Htr & Hx).
  { apply call_model_paths. intro o. now exists o. }
  rewrite Hx. clear Hx. simpl in Htr.
  destruct (http_server C w (endpoint self) (request_payload (model self) prompt) 300)
    as [o' w'].
  simpl in Htr. injection Htr as Ho _. now subst o'.
Qed.

(** C8, as the code has it: [_call_model] returns the member [response]
    of the decoded object, or the empty string when the object has no
    such member; it raises an error of the inference family when the
    request fails or times out, when the status is a 4xx or 5xx one, and
    when the body does not decode. *)
Theorem call_model_contract {W : Type} (C : Collaborators W) (self : PRReviewBot)
    (prompt : string) (w w' : W) (o : post_outcome) :
  http_server C w (endpoint self) (request_payload (model self) prompt) 300 = (o, w') ->
  let res := fst (outcome (exec C (_call_model prompt self) w)) in
  (o = ConnectionFailed \/ o = TimedOut \/ (exists reason, o = RequestFailed reason) ->
   exists e, res = inl e /\ kind_of e = InferenceError)
  /\ (forall r, o = Responded r ->
                (400 <= status_code r < 600)%Z ->
                res = inl (HTTPError (status_code r)))
  /\ (forall r, o = Responded r ->
                ~ (400 <= status_code r < 600)%Z ->
                decoded r = None ->
                res = inl JSONDecodeError)
  /\ (forall r members, o = Responded r ->
                ~ (400 <= status_code r < 600)%Z ->
                decoded r = Some (JObject members) ->
                res = inr match lookup "response" members with
                          | Some text => text
                          | None => JString ""
                          end).
Proof.
  intros Hpost res. subst res. rewrite call_model_run, Hpost. cbn [fst].
  assert (Herr : forall s, (400 <= s < 600)%Z -> error_status s = true).
  { intros s [Hlo Hhi]. unfold error_status.
    apply Z.leb_le in Hlo. apply Z.ltb_lt in Hhi. now rewrite Hlo, Hhi. }
  assert (Hok : forall s, ~ (400 <= s < 600)%Z -> error_status s = false).
  { intros s Hs. unfold error_status.
    destruct (400 <=? s)%Z eqn:Hlo; [ | reflexivity ].
    destruct (s <? 600)%Z eqn:Hhi; [ | reflexivity ].
    apply Z.leb_le in Hlo. apply Z.ltb_lt in Hhi. lia. }
  repeat split.
  - intros [-> | [-> | [reason ->]]]; simpl; eauto.
  - intros r -> Hs. simpl. now rewrite (Herr _ Hs).
  - intros r -> Hs Hbody. simpl. now rewrite (Hok _ Hs), Hbody.
  - intros r members -> Hs Hbody. simpl. now rewrite (Hok _ Hs), Hbody.
Qed.

Lemma call_model_contract_witness :
  fst (outcome (exec (fixed [] (Responded (mkResponse 200 (Some (JObject [("done", JBool true)])))))
                  (_call_model "Provide your review now." default_bot) tt))
  = inr (JString "").
Proof.
  refine (proj2 (proj2 (proj2
            (call_model_contract
               (fixed [] (Responded (mkResponse 200 (Some (JObject [("done", JBool true)])))))
               default_bot "Provide your review now." tt tt _ eq_refl)))
            (mkResponse 200 (Some (JObject [("done", JBool true)])))
            [("done", JBool true)] eq_refl _ eq_refl).
  simpl. lia.
Defined.

(** C8 fails on the code for a status outside 2xx that is no error
    status: a 300 response with a body goes through [raise_for_status],
    and its text is returned.  A body that decodes to something that is
    no object has no [get], and the error is not of the inference
    family. *)
Lemma call_model_accepts_status_300 :
  fst (outcome (exec (fixed [] (Responded (mkResponse 300
                                  (Some (JObject [("response", JString "text")])))))
                  (_call_model "Provide your review now." default_bot) tt))
  = inr (JString "text")
  /\ fst (outcome (exec (fixed [] (Responded (mkResponse 200 (Some (JArray [])))))
                     (_call_model "Provide your review now." default_bot) tt))
     = inl AttributeError
  /\ kind_of AttributeError <> InferenceError.
Proof. repeat split. discriminate. Qed.

(** ** The configuration *)

Lemma review_loop_keeps_self (source target : string) (files : list string) :
  forall (reviews : list FileReview) (self : PRReviewBot),
    io_paths (fun _ x => snd x = self) (review_loop source target files reviews self).
Proof.
  induction files as [ | p rest IH]; intros reviews self.
  - reflexivity.
  - apply review_loop_step. intro o1. cbv zeta.
    destruct (git_stdout (diff_argv source target p) o1); [ reflexivity | ].
    intro o2.
    destruct (git_stdout (show_argv source p) o2); [ reflexivity | ].
    intro o3.
    destruct (model_reply o3); [ reflexivity | ].
    eapply io_paths_weaken; [ | apply IH ]. intros tr x H. exact H.
Qed.

(** C10: [review] and each of its steps leave the bot with the
    [repo_path], [model] and [endpoint] it had, whether they return or
    raise. *)
Theorem configuration_is_not_mutated {W : Type} (C : Collaborators W)
    (self : PRReviewBot) (source target path diff content prompt : string)
    (args : list string) (w : W) :
  snd (outcome (run_review C self source target w)) = self
  /\ snd (outcome (exec C (_changed_files source target self) w)) = self
  /\ snd (outcome (exec C (_file_diff source target path self) w)) = self
  /\ snd (outcome (exec C (_file_content source path self) w)) = self
  /\ snd (outcome (exec C (_analyze path diff content source target self) w)) = self
  /\ snd (outcome (exec C (_call_model prompt self) w)) = self
  /\ snd (outcome (exec C (_run_git args self) w)) = self.
Proof.
  repeat split; unfold run_review;
    apply (io_paths_exec C _ (fun _ x => snd x = self)).
  - apply review_paths. intro o. cbv zeta.
    destruct (git_stdout (listing_argv source target) o); [ reflexivity | ].
    eapply io_paths_weaken; [ | apply review_loop_keeps_self ].
    intros tr x H. exact H.
  - eapply io_paths_bind.
    + apply run_git_paths with (R := fun _ x => snd x = self). reflexivity.
    + intros tr e s H. exact H.
    + intros tr out s H. simpl in *. exact H.
  - apply run_git_paths. reflexivity.
  - apply run_git_paths. reflexivity.
  - apply call_model_paths. reflexivity.
  - apply call_model_paths. reflexivity.
  - apply run_git_paths. reflexivity.
Qed.

(** ** The prompt *)

(** On the patch and the content of the test, the prompt holds both. *)
Example prompt_of_the_test_holds_patch_and_content :
  PyStr.contains
    (build_prompt "hello.py" hello_diff ("print('hello world')" ++ PyStr.nl) "feature" "main")
    hello_diff = true
  /\ PyStr.contains
       (build_prompt "hello.py" hello_diff ("print('hello world')" ++ PyStr.nl) "feature" "main")
       ("print('hello world')" ++ PyStr.nl) = true.
Proof. split; vm_compute; reflexivity. Qed.

(** C7 fails on the code: the empty context line of a patch, a single
    space, is blanked by [textwrap.dedent], which runs on the text after
    the patch was put into it.  The text before [dedent] holds the
    patch, the prompt does not. *)
Theorem prompt_loses_blank_context_line :
  PyStr.substring spaced_diff
    (prompt_text "hello.py" spaced_diff spaced_content "feature" "main")
  /\ ~ PyStr.substring spaced_diff
         (build_prompt "hello.py" spaced_diff spaced_content "feature" "main").
Proof.
  split.
  - apply prompt_text_embeds.
  - rewrite <- PyStrFacts.contains_iff. vm_compute. discriminate.
Qed.

(** ** The test of the repository, and three files in order *)

Example test_review_collects_changes :
  fst (outcome (run_review (fixed hello_repo (generated "stub response"))
                  (mkBot "repo" "llama3" "http://localhost:11434/api/generate")
                  "feature" "main" tt))
  = inr [mkFileReview "hello.py" (JString "stub response")].
Proof. vm_compute. reflexivity. Qed.

Example three_files_reviewed_in_order :
  fst (outcome (run_review scripted default_bot "feature" "main" three_files_script))
  = inr [mkFileReview "a.py" (JString "a.py");
         mkFileReview "b.py" (JString "b.py");
         mkFileReview "c.py" (JString "c.py")].
Proof. vm_compute. reflexivity. Qed.

(** * More of the code *)

(** ** The calls of a run *)

Lemma git_stdout_exited (argv : list string) (o : run_outcome) (out : string) :
  git_stdout argv o = inr out -> exists err, o = Exited 0 out err.
Proof.
  unfold git_stdout, completed. destruct o as [rc out' err | msg]; [ | discriminate ].
  destruct (rc =? 0)%Z eqn:Hrc; [ | discriminate ].
  apply Z.eqb_eq in Hrc. subst rc. simpl. intros H. injection H as ->. now exists err.
Qed.

Lemma review_loop_expected_calls (source target : string) (files : list string) :
  forall (reviews : list FileReview) (self : PRReviewBot),
    io_paths (fun tr _ => Forall (expected_call self) tr)
      (review_loop source target files reviews self).
Proof.
  induction files as [ | p rest IH]; intros reviews self.
  - constructor.
  - assert (H1 : forall o, expected_call self
                             (EvRun (diff_argv source target p) (repo_path self) o)).
    { intro o. split; [ reflexivity | eexists; left; reflexivity ]. }
    assert (H2 : forall o, expected_call self
                             (EvRun (show_argv source p) (repo_path self) o)).
    { intro o. split; [ reflexivity | eexists; right; reflexivity ]. }
    assert (H3 : forall prompt o,
               expected_call self
                 (EvPost (endpoint self) (request_payload (model self) prompt) 300 o)).
    { intros prompt o. split; [ reflexivity | split; [ reflexivity | now exists prompt ] ]. }
    apply review_loop_step. intro o1. cbv zeta.
    destruct (git_stdout (diff_argv source target p) o1) as [e | diff];
      [ repeat (apply Forall_cons; [ solve [ auto ] | ]); apply Forall_nil | ].
    intro o2.
    destruct (git_stdout (show_argv source p) o2) as [e | content];
      [ repeat (apply Forall_cons; [ solve [ auto ] | ]); apply Forall_nil | ].
    intro o3.
    destruct (model_reply o3) as [e | text];
      [ repeat (apply Forall_cons; [ solve [ auto ] | ]); apply Forall_nil | ].
    eapply io_paths_weaken; [ | apply IH ].
    intros tr x H. cbv beta in *.
    repeat (apply Forall_cons; [ solve [ auto ] | ]). exact H.
Qed.

(** X3: whatever the collaborators answer, every call of [review] to
    [subprocess.run] is for [git diff] or [git show] with the repository
    of the bot as [cwd], and every call of [review] to [requests.post]
    has the endpoint of the bot as URL, a timeout of 300 and a
    non-streaming request for the model of the bot as payload. *)
Theorem review_calls_are_as_expected {W : Type} (C : Collaborators W)
    (self : PRReviewBot) (source target : string) (w : W) :
  Forall (expected_call self) (trace (run_review C self source target w)).
Proof.
  unfold run_review.
  apply (io_paths_exec C _ (fun tr _ => Forall (expected_call self) tr)).
  apply review_paths. intro o. cbv zeta.
  assert (H0 : expected_call self
                 (EvRun (listing_argv source target) (repo_path self) o)).
  { split; [ reflexivity | eexists; left; reflexivity ]. }
  destruct (git_stdout (listing_argv source target) o) as [e | out].
  - apply Forall_cons; [ exact H0 | apply Forall_nil ].
  - eapply io_paths_weaken; [ | apply review_loop_expected_calls ].
    intros tr x H. cbv beta in *. apply Forall_cons; [ exact H0 | exact H ].
Qed.

(** *** Every post is fed by the two calls before it *)

Lemma all_fed_nil (source target : string) (self : PRReviewBot) :
  all_fed source target self [].
Proof. intros [ | x before] ev after H; discriminate. Qed.

Lemma all_fed_snoc (source target : string) (self : PRReviewBot)
    (tr : list event) (ev : event) :
  all_fed source target self tr -> fed_by source target self tr ev ->
  all_fed source target self (tr ++ [ev]).
Proof.
  intros Htr Hev before ev' after Heq.
  destruct after as [ | a after] using rev_ind.
  - apply app_inj_tail in Heq as [-> ->]. exact Hev.
  - clear IHafter. rewrite app_comm_cons, app_assoc in Heq.
    apply app_inj_tail in Heq as [-> _]. now apply (Htr before ev' after).
Qed.

Lemma review_loop_all_fed (source target : string) (files : list string) :
  forall (reviews : list FileReview) (self : PRReviewBot) (pre : list event),
    all_fed source target self pre ->
    io_paths (fun tr _ => all_fed source target self (pre ++ tr))
      (review_loop source target files reviews self).
Proof.
  induction files as [ | p rest IH]; intros reviews self pre Hpre.
  - simpl. now rewrite app_nil_r.
  - apply review_loop_step. intro o1. cbv zeta.
    assert (F1 : all_fed source target self
                   (pre ++ [EvRun (diff_argv source target p) (repo_path self) o1])).
    { apply all_fed_snoc; [ exact Hpre | exact I ]. }
    destruct (git_stdout (diff_argv source target p) o1) as [e | diff] eqn:E1;
      [ exact F1 | ].
    intro o2.
    assert (F2 : all_fed source target self
                   ((pre ++ [EvRun (diff_argv source target p) (repo_path self) o1])
                    ++ [EvRun (show_argv source p) (repo_path self) o2])).
    { apply all_fed_snoc; [ exact F1 | exact I ]. }
    rewrite <- app_assoc in F2. simpl in F2.
    destruct (git_stdout (show_argv source p) o2) as [e | content] eqn:E2;
      [ exact F2 | ].
    intro o3.
    assert (F3 : all_fed source target self
                   ((pre ++ [EvRun (diff_argv source target p) (repo_path self) o1;
                             EvRun (show_argv source p) (repo_path self) o2])
                    ++ [EvPost (endpoint self)
                          (request_payload (model self)
                             (build_prompt p diff content source target)) 300 o3])).
    { apply all_fed_snoc; [ exact F2 | ].
      destruct (git_stdout_exited _ _ _ E1) as [err1 ->].
      destruct (git_stdout_exited _ _ _ E2) as [err2 ->].
      now exists pre, p, diff, err1, content, err2. }
    rewrite <- app_assoc in F3. simpl in F3.
    destruct (model_reply o3) as [e | text]; [ exact F3 | ].
    eapply io_paths_weaken; [ | apply (IH _ self _ F3) ].
    intros tr x H. cbv beta in *. rewrite <- app_assoc in H. exact H.
Qed.

(** X4: in any run of [review], a post to the model comes right after the
    [git diff] and the [git show] of one path, both with exit status 0,
    and its prompt is built from that path and from what these two
    calls printed. *)
Theorem model_is_asked_about_fetched_files {W : Type} (C : Collaborators W)
    (self : PRReviewBot) (source target : string) (w : W)
    (before after : list event) (url : string) (payload : json) (timeout : Z)
    (o : post_outcome) :
  trace (run_review C self source target w)
  = (before ++ EvPost url payload timeout o :: after)%list ->
  exists earlier p diff err1 content err2,
    before = (earlier ++
              [EvRun (diff_argv source target p) (repo_path self) (Exited 0 diff err1);
               EvRun (show_argv source p) (repo_path self) (Exited 0 content err2)])%list
    /\ payload = request_payload (model self) (build_prompt p diff content source target).
Proof.
  intros Htr.
  assert (H : all_fed source target self (trace (run_review C self source target w))).
  { unfold run_review.
    apply (io_paths_exec C _ (fun tr _ => all_fed source target self tr)).
    apply review_paths. intro o0. cbv zeta.
    assert (F0 : all_fed source target self
                   ([] ++ [EvRun (listing_argv source target) (repo_path self) o0])).
    { apply all_fed_snoc; [ apply all_fed_nil | exact I ]. }
    destruct (git_stdout (listing_argv source target) o0) as [e | out]; [ exact F0 | ].
    apply (review_loop_all_fed source target _ [] self _ F0). }
  exact (H before _ after Htr).
Qed.

Lemma model_is_asked_about_fetched_files_witness :
  exists earlier p diff err1 content err2,
    [EvRun (listing_argv "feature" "main") "." (Exited 0 ("hello.py" ++ PyStr.nl) "");
     EvRun (diff_argv "feature" "main" "hello.py") "." (Exited 0 hello_diff "");
     EvRun (show_argv "feature" "hello.py") "."
       (Exited 0 ("print('hello world')" ++ PyStr.nl) "")]
    = (earlier ++
       [EvRun (diff_argv "feature" "main" p) (repo_path default_bot) (Exited 0 diff err1);
        EvRun (show_argv "feature" p) (repo_path default_bot) (Exited 0 content err2)])%list
    /\ request_payload "llama3"
         (build_prompt "hello.py" hello_diff ("print('hello world')" ++ PyStr.nl)
            "feature" "main")
       = request_payload (model default_bot) (build_prompt p diff content "feature" "main").
Proof.
  apply (model_is_asked_about_fetched_files
           (fixed hello_repo (generated "stub response")) default_bot "feature" "main" tt
           _ [] (endpoint default_bot) _ 300 (generated "stub response")).
  vm_compute. reflexivity.
Defined.

(** *** How many calls *)

Lemma review_loop_counts (source target : string) (files : list string) :
  forall (reviews : list FileReview) (self : PRReviewBot),
    io_paths (fun tr x =>
                (model_calls tr <= List.length files
                 /\ List.length tr <= 3 * List.length files)
                /\ forall rs, fst x = inr rs ->
                     List.length rs = List.length reviews + List.length files
                     /\ model_calls tr = List.length files
                     /\ List.length tr = 3 * List.length files)
      (review_loop source target files reviews self).
Proof.
  induction files as [ | p rest IH]; intros reviews self.
  - simpl. split; [ split; apply Nat.le_refl | ].
    intros rs H. injection H as <-. repeat split. lia.
  - apply review_loop_step. intro o1. cbv zeta.
    destruct (git_stdout (diff_argv source target p) o1) as [e | diff].
    { split; [ | discriminate ]. unfold model_calls. simpl. lia. }
    intro o2.
    destruct (git_stdout (show_argv source p) o2) as [e | content].
    { split; [ | discriminate ]. unfold model_calls. simpl. lia. }
    intro o3.
    destruct (model_reply o3) as [e | text].
    { split; [ | discriminate ]. unfold model_calls. simpl. lia. }
    eapply io_paths_weaken; [ | apply IH ].
    intros tr x [[Hm Hl] Hrs]. cbv beta. unfold model_calls in *. simpl.
    split; [ lia | ].
    intros rs Hx. destruct (Hrs rs Hx) as (H1 & H2 & H3).
    rewrite length_app in H1. simpl in H1. lia.
Qed.

(** X5: a run of [review] that returns [n] reviews made [1 + 3 * n] calls,
    [n] of them to the model: one listing, then a diff, a content and a
    post per file. *)
Theorem review_makes_three_calls_per_file {W : Type} (C : Collaborators W)
    (self : PRReviewBot) (source target : string) (w : W) (rs : list FileReview) :
  fst (outcome (run_review C self source target w)) = inr rs ->
  List.length (trace (run_review C self source target w)) = 1 + 3 * List.length rs
  /\ model_calls (trace (run_review C self source target w)) = List.length rs.
Proof.
  unfold run_review.
  refine (io_paths_exec C _
            (fun tr x => forall rs, fst x = inr rs ->
                           List.length tr = 1 + 3 * List.length rs
                           /\ model_calls tr = List.length rs) w _ rs).
  apply review_paths. intro o. cbv zeta.
  destruct (git_stdout (listing_argv source target) o) as [e | out]; [ discriminate | ].
  eapply io_paths_weaken; [ | apply (review_loop_counts source target _ [] self) ].
  intros tr x [_ Hrs] rs' Hx. destruct (Hrs rs' Hx) as (H1 & H2 & H3).
  unfold model_calls in *. simpl in *. lia.
Qed.

Lemma review_makes_three_calls_per_file_witness :
  List.length (trace (run_review scripted default_bot "feature" "main" three_files_script))
  = 1 + 3 * 3
  /\ model_calls (trace (run_review scripted default_bot "feature" "main" three_files_script))
     = 3.
Proof.
  apply (review_makes_three_calls_per_file scripted default_bot "feature" "main"
           three_files_script
           [mkFileReview "a.py" (JString "a.py");
            mkFileReview "b.py" (JString "b.py");
            mkFileReview "c.py" (JString "c.py")]).
  vm_compute. reflexivity.
Defined.

(** X6: in any run of [review], returning or not, the model is called at
    most once per changed file, and at most three calls are made per
    changed file after the listing. *)
Theorem review_calls_are_bounded_by_files {W : Type} (C : Collaborators W)
    (self : PRReviewBot) (source target : string) (w : W) (files : list string) :
  fst (outcome (exec C (_changed_files source target self) w)) = inr files ->
  model_calls (trace (run_review C self source target w)) <= List.length files
  /\ List.length (trace (run_review C self source target w)) <= 1 + 3 * List.length files.
Proof.
  intros Hfiles. rewrite changed_files_run in Hfiles. rewrite run_review_unfold.
  destruct (git_process C w (listing_argv source target) (repo_path self)) as [o w'].
  cbn [fst] in Hfiles. cbv zeta.
  destruct (git_stdout (listing_argv source target) o) as [e | out]; [ discriminate | ].
  injection Hfiles as <-. cbn [trace].
  destruct (io_paths_exec C _ _ w'
              (review_loop_counts source target (paths_of_listing out) [] self))
    as [[Hm Hl] _].
  split; [ exact Hm | exact (le_n_S _ _ Hl) ].
Qed.

Lemma review_calls_are_bounded_by_files_witness :
  model_calls (trace (run_review (fixed deleted_repo (generated "Looks fine."))
                        default_bot "feature" "main" tt)) <= 2
  /\ List.length (trace (run_review (fixed deleted_repo (generated "Looks fine."))
                           default_bot "feature" "main" tt)) <= 1 + 3 * 2.
Proof.
  exact (review_calls_are_bounded_by_files
           (fixed deleted_repo (generated "Looks fine.")) default_bot "feature" "main" tt
           ["gone.py"; "hello.py"] eq_refl).
Defined.

(** *** What the reviews carry *)

Lemma review_loop_replies (source target : string) (files : list string) :
  forall (reviews : list FileReview) (self : PRReviewBot),
    io_paths (fun tr x =>
                forall rs, fst x = inr rs ->
                  map (fun fr => inr (comments fr)) rs
                  = (map (fun fr => inr (comments fr)) reviews
                     ++ map model_reply (post_outcomes tr))%list)
      (review_loop source target files reviews self).
Proof.
  induction files as [ | p rest IH]; intros reviews self.
  - simpl. intros rs H. injection H as <-. now rewrite app_nil_r.
  - apply review_loop_step. intro o1. cbv zeta.
    destruct (git_stdout (diff_argv source target p) o1) as [e | diff];
      [ discriminate | ].
    intro o2.
    destruct (git_stdout (show_argv source p) o2) as [e | content];
      [ discriminate | ].
    intro o3.
    destruct (model_reply o3) as [e | text] eqn:E3; [ discriminate | ].
    eapply io_paths_weaken; [ | apply IH ].
    intros tr x H rs Hrs. cbv beta in H.
    rewrite (H rs Hrs), map_app, <- app_assoc. simpl. now rewrite E3.
Qed.

(** X7: when [review] returns, the comments of its reviews are, in order,
    what [_call_model] made of the answers to the posts of the run:
    the i-th review carries the i-th answer, whatever the model says. *)
Theorem reviews_carry_the_replies_in_order {W : Type} (C : Collaborators W)
    (self : PRReviewBot) (source target : string) (w : W) (rs : list FileReview) :
  fst (outcome (run_review C self source target w)) = inr rs ->
  map model_reply (post_outcomes (trace (run_review C self source target w)))
  = map (fun fr => inr (comments fr)) rs.
Proof.
  unfold run_review.
  refine (io_paths_exec C _
            (fun tr x => forall rs, fst x = inr rs ->
                           map model_reply (post_outcomes tr)
                           = map (fun fr => inr (comments fr)) rs) w _ rs).
  apply review_paths. intro o. cbv zeta.
  destruct (git_stdout (listing_argv source target) o) as [e | out]; [ discriminate | ].
  eapply io_paths_weaken; [ | apply (review_loop_replies source target _ [] self) ].
  intros tr x H rs' Hx. cbv beta in H. simpl. now rewrite (H rs' Hx).
Qed.

Lemma reviews_carry_the_replies_in_order_witness :
  map model_reply
    (post_outcomes (trace (run_review scripted default_bot "feature" "main"
                             three_files_script)))
  = map (fun fr => inr (comments fr))
      [mkFileReview "a.py" (JString "a.py");
       mkFileReview "b.py" (JString "b.py");
       mkFileReview "c.py" (JString "c.py")].
Proof.
  apply (reviews_carry_the_replies_in_order scripted default_bot "feature" "main"
           three_files_script).
  vm_compute. reflexivity.
Defined.

(** ** The dict the script prints *)

Lemma lookup_dict_set (p key : string) (value : json) (d : list (string * json)) :
  lookup p (dict_set key value d)
  = if String.eqb key p then Some value else lookup p d.
Proof.
  induction d as [ | [k v] rest IH]; simpl.
  - reflexivity.
  - destruct (String.eqb k key) eqn:Hk; simpl.
    + apply String.eqb_eq in Hk. subst k. now destruct (String.eqb key p).
    + rewrite IH. destruct (String.eqb k p) eqn:Hp; [ | reflexivity ].
      apply String.eqb_eq in Hp. subst k. now rewrite String.eqb_sym, Hk.
Qed.

Lemma find_snoc {T : Type} (f : T -> bool) (l : list T) (x : T) :
  find f (l ++ [x])
  = match find f l with Some y => Some y | None => if f x then Some x else None end.
Proof.
  induction l as [ | y l IH]; simpl; [ reflexivity | ].
  now destruct (f y).
Qed.

Lemma fold_dict_set_lookup (p : string) (rs : list FileReview) :
  forall d,
    lookup p (fold_left (fun d r => dict_set (path r) (comments r) d) rs d)
    = match find (fun r => String.eqb (path r) p) (rev rs) with
      | Some r => Some (comments r)
      | None => lookup p d
      end.
Proof.
  induction rs as [ | r rs IH]; intros d; simpl.
  - reflexivity.
  - rewrite IH, find_snoc, lookup_dict_set.
    destruct (find (fun r0 => String.eqb (path r0) p) (rev rs)); [ reflexivity | ].
    now destruct (String.eqb (path r) p).
Qed.

(** X8: in the dict of the script, a path is bound to the comments of the
    last review of that path, and a path without review is not bound. *)
Theorem output_binds_the_last_review (p : string) (rs : list FileReview) :
  lookup p (output_of rs)
  = option_map comments (find (fun r => String.eqb (path r) p) (rev rs)).
Proof.
  unfold output_of. rewrite fold_dict_set_lookup.
  now destruct (find (fun r => String.eqb (path r) p) (rev rs)).
Qed.

Lemma dict_set_keys (key : string) (value : json) (d : list (string * json)) :
  (In key (map fst d) /\ map fst (dict_set key value d) = map fst d)
  \/ (~ In key (map fst d) /\ dict_set key value d = (d ++ [(key, value)])%list).
Proof.
  induction d as [ | [k v] rest IH]; simpl.
  - right. split; [ intros [] | reflexivity ].
  - destruct (String.eqb k key) eqn:Hk.
    + apply String.eqb_eq in Hk. subst k. left. split; [ now left | reflexivity ].
    + apply String.eqb_neq in Hk.
      destruct IH as [[Hin Hkeys] | [Hout Heq]].
      * left. split; [ now right | simpl; now rewrite Hkeys ].
      * right. split; [ | now rewrite Heq ].
        intros [H | H]; [ now apply Hk | now apply Hout ].
Qed.

Lemma NoDup_snoc {T : Type} (l : list T) (x : T) :
  NoDup l -> ~ In x l -> NoDup (l ++ [x]).
Proof.
  induction l as [ | y l IH]; intros Hl Hx; simpl.
  - constructor; [ intros [] | constructor ].
  - inversion Hl as [ | y' l' Hy Hl' ]; subst. constructor.
    + rewrite in_app_iff. simpl. intros [H | [H | []]]; [ now apply Hy | ].
      apply Hx. now left.
    + apply IH; [ exact Hl' | ]. intro H. apply Hx. now right.
Qed.

Lemma fold_dict_set_keys (rs : list FileReview) :
  forall d,
    NoDup (map fst d) ->
    let out := fold_left (fun d r => dict_set (path r) (comments r) d) rs d in
    NoDup (map fst out)
    /\ (forall p, In p (map fst out) <-> In p (map fst d) \/ In p (map path rs))
    /\ (NoDup (map fst d ++ map path rs) ->
        out = (d ++ map (fun r => (path r, comments r)) rs)%list).
Proof.
  induction rs as [ | r rs IH]; intros d Hd; simpl.
  - split; [ exact Hd | ]. split.
    + intro p. split; [ now left | now intros [H | []] ].
    + intros _. now rewrite app_nil_r.
  - destruct (dict_set_keys (path r) (comments r) d) as [[Hin Hkeys] | [Hout Heq]].
    + assert (Hd' : NoDup (map fst (dict_set (path r) (comments r) d)))
        by now rewrite Hkeys.
      destruct (IH _ Hd') as (H1 & H2 & _). split; [ exact H1 | ]. split.
      * intro p. rewrite H2, Hkeys. split.
        -- intros [H | H]; [ now left | right; now right ].
        -- intros [H | [<- | H]]; [ now left | now left | now right ].
      * intros Hnd. exfalso. apply NoDup_remove_2 in Hnd. apply Hnd.
        apply in_or_app. now left.
    + assert (Hd' : NoDup (map fst (dict_set (path r) (comments r) d))).
      { rewrite Heq, map_app. simpl. now apply NoDup_snoc. }
      destruct (IH _ Hd') as (H1 & H2 & H3). split; [ exact H1 | ]. split.
      * intro p. rewrite H2, Heq, map_app, in_app_iff. simpl. tauto.
      * intros Hnd. rewrite H3.
        -- rewrite Heq, <- app_assoc. reflexivity.
        -- rewrite Heq, map_app, <- app_assoc. exact Hnd.
Qed.

(** X9: the keys of the dict of the script are the paths of the reviews,
    each of them once. *)
Theorem output_keys_are_the_paths (rs : list FileReview) :
  NoDup (map fst (output_of rs))
  /\ forall p, In p (map fst (output_of rs)) <-> In p (map path rs).
Proof.
  destruct (fold_dict_set_keys rs [] (NoDup_nil _)) as (H1 & H2 & _).
  split; [ exact H1 | ].
  intro p. unfold output_of. rewrite H2. simpl. tauto.
Qed.

(** X10: when no two reviews have the same path, the dict of the script has
    one item per review, in the order of the reviews. *)
Theorem output_keeps_distinct_reviews (rs : list FileReview) :
  NoDup (map path rs) ->
  output_of rs = map (fun r => (path r, comments r)) rs.
Proof.
  intros Hnd.
  destruct (fold_dict_set_keys rs [] (NoDup_nil _)) as (_ & _ & H3).
  exact (H3 Hnd).
Qed.

Lemma output_keeps_distinct_reviews_witness :
  output_of [mkFileReview "a.py" (JString "fine"); mkFileReview "b.py" JNull]
  = [("a.py", JString "fine"); ("b.py", JNull)].
Proof.
  apply (output_keeps_distinct_reviews
           [mkFileReview "a.py" (JString "fine"); mkFileReview "b.py" JNull]).
  repeat constructor; simpl; intuition discriminate.
Defined.

(** ** The script *)

Lemma exec_io_bind_ret {W A B : Type} (C : Collaborators W) (f : A -> io B) (g : A -> B)
    (p : io A) :
  (forall a, f a = Ret (g a)) ->
  forall w,
    outcome (exec C (io_bind p f) w) = g (outcome (exec C p w))
    /\ trace (exec C (io_bind p f) w) = trace (exec C p w).
Proof.
  intros Hf.
  induction p as [a | argv cwd k IH | url payload timeout k IH]; intros w; simpl.
  - rewrite Hf. now split.
  - destruct (git_process C w argv cwd) as [o w']. simpl.
    destruct (IH o w') as [Ho Htr]. now rewrite Ho, Htr.
  - destruct (http_server C w url payload timeout) as [o w']. simpl.
    destruct (IH o w') as [Ho Htr]. now rewrite Ho, Htr.
Qed.

Lemma main_run {W : Type} (C : Collaborators W) (args : Args) (w : W) :
  let r := run_review C (mkBot (arg_repo args) (arg_model args) (arg_endpoint args))
             (arg_source args) (arg_target args) w in
  outcome (exec C (main args) w)
  = match fst (outcome r) with
    | inl e => inl e
    | inr result => inr (JObject (output_of result))
    end
  /\ trace (exec C (main args) w) = trace r.
Proof.
  unfold main, run_review.
  apply (exec_io_bind_ret C _
           (fun rs => match fst rs with
                      | inl e => inl e
                      | inr result => inr (JObject (output_of result))
                      end)).
  intros [[e | result] s]; reflexivity.
Qed.

(** X11: the script makes the calls of [review] and no other; an exception
    of [review] leaves the script as it is, and nothing is printed. *)
Theorem main_fails_as_review_fails {W : Type} (C : Collaborators W) (args : Args)
    (w : W) (e : exn) :
  fst (outcome (run_review C (mkBot (arg_repo args) (arg_model args) (arg_endpoint args))
                  (arg_source args) (arg_target args) w)) = inl e ->
  outcome (exec C (main args) w) = inl e
  /\ trace (exec C (main args) w)
     = trace (run_review C (mkBot (arg_repo args) (arg_model args) (arg_endpoint args))
                (arg_source args) (arg_target args) w).
Proof.
  intros He. destruct (main_run C args w) as [Ho Htr].
  rewrite Ho, He. now split.
Qed.

Lemma main_fails_as_review_fails_witness :
  outcome (exec (fixed deleted_repo (generated "Looks fine."))
             (main (mkArgs "feature" "main" "." "llama3" "http://localhost:11434/api/generate"))
             tt)
  = inl (CalledProcessError 128 (show_argv "feature" "gone.py") ""
           "fatal: path 'gone.py' does not exist in 'feature'").
Proof.
  exact (proj1 (main_fails_as_review_fails
                  (fixed deleted_repo (generated "Looks fine."))
                  (mkArgs "feature" "main" "." "llama3" "http://localhost:11434/api/generate")
                  tt _ eq_refl)).
Defined.

(** X12: when the script ends well and the changed files that
    [_changed_files] reported are distinct, the printed object has one
    member per changed file, in the order of the listing, bound to the
    answer of the model for that file. *)
Theorem main_prints_one_member_per_file {W : Type} (C : Collaborators W) (args : Args)
    (w : W) (files : list string) (printed : json) :
  let bot := mkBot (arg_repo args) (arg_model args) (arg_endpoint args) in
  fst (outcome (exec C (_changed_files (arg_source args) (arg_target args) bot) w))
  = inr files ->
  NoDup files ->
  outcome (exec C (main args) w) = inr printed ->
  exists members,
    printed = JObject members
    /\ map fst members = files
    /\ map (fun kv => inr (snd kv)) members
       = map model_reply (post_outcomes (trace (exec C (main args) w))).
Proof.
  intros bot Hfiles Hnd Hmain.
  destruct (main_run C args w) as [Ho Htr]. fold bot in Ho, Htr.
  rewrite Ho in Hmain. rewrite Htr.
  destruct (fst (outcome (run_review C bot (arg_source args) (arg_target args) w)))
    as [e | rs] eqn:Hrs; [ discriminate | ].
  injection Hmain as <-.
  assert (Hpaths : map path rs = files).
  { rewrite changed_files_run in Hfiles. rewrite run_review_unfold in Hrs.
    destruct (git_process C w (listing_argv (arg_source args) (arg_target args))
                (repo_path bot)) as [o w'].
    cbn [fst] in Hfiles. cbv zeta in Hrs.
    destruct (git_stdout (listing_argv (arg_source args) (arg_target args)) o)
      as [e | out]; [ discriminate | ].
    injection Hfiles as <-. cbn [outcome] in Hrs.
    exact (io_paths_exec C _ _ w'
             (review_loop_paths_in_order (arg_source args) (arg_target args) _ [] bot)
             rs Hrs). }
  exists (output_of rs). split; [ reflexivity | ].
  destruct (fold_dict_set_keys rs [] (NoDup_nil _)) as (_ & _ & Hout).
  unfold output_of. rewrite Hout by (simpl; now rewrite Hpaths). simpl.
  rewrite !map_map. simpl. split; [ exact Hpaths | ].
  unfold run_review in *.
  assert (Hrep := io_paths_exec C (review (arg_source args) (arg_target args) bot)
                    (fun tr x => forall rs, fst x = inr rs ->
                                   map model_reply (post_outcomes tr)
                                   = map (fun fr => inr (comments fr)) rs) w).
  symmetry. apply Hrep; [ | exact Hrs ].
  apply review_paths. intro o. cbv zeta.
  destruct (git_stdout (listing_argv (arg_source args) (arg_target args)) o)
    as [e | out]; [ discriminate | ].
  eapply io_paths_weaken;
    [ | apply (review_loop_replies (arg_source args) (arg_target args) _ [] bot) ].
  intros tr x H rs' Hx. cbv beta in H. simpl. now rewrite (H rs' Hx).
Qed.

Lemma main_prints_one_member_per_file_witness :
  exists members,
    JObject [("a.py", JString "a.py"); ("b.py", JString "b.py"); ("c.py", JString "c.py")]
    = JObject members
    /\ map fst members = ["a.py"; "b.py"; "c.py"]
    /\ map (fun kv => inr (snd kv)) members
       = map model_reply
           (post_outcomes
              (trace (exec scripted
                        (main (mkArgs "feature" "main" "." "llama3"
                                 "http://localhost:11434/api/generate"))
                        three_files_script))).
Proof.
  apply (main_prints_one_member_per_file scripted
           (mkArgs "feature" "main" "." "llama3" "http://localhost:11434/api/generate")
           three_files_script ["a.py"; "b.py"; "c.py"]).
  - vm_compute. reflexivity.
  - repeat constructor; simpl; intuition discriminate.
  - vm_compute. reflexivity.
Defined.

(** ** The paths of the listing *)

Module StripFacts.
Import PyStr.

Lemma lstrip_head (s : string) :
  match lstrip s with
  | EmptyString => True
  | String c _ => isspace c = false
  end.
Proof.
  induction s as [ | c rest IH]; simpl; [ exact I | ].
  destruct (isspace c) eqn:Hc; [ exact IH | exact Hc ].
Qed.

Lemma lstrip_keep (c : ascii) (rest : string) :
  isspace c = false -> lstrip (String c rest) = String c rest.
Proof. intros Hc. simpl. now rewrite Hc. Qed.

Lemma rstrip_keep (c : ascii) (rest : string) :
  isspace c = false -> rstrip (String c rest) = String c (rstrip rest).
Proof. intros Hc. simpl. rewrite Hc. now destruct (rstrip rest). Qed.

Lemma rstrip_idempotent (s : string) : rstrip (rstrip s) = rstrip s.
Proof.
  induction s as [ | c rest IH]; simpl; [ reflexivity | ].
  destruct (rstrip rest) as [ | d kept] eqn:Hrest.
  - destruct (isspace c) eqn:Hc; simpl; [ reflexivity | now rewrite Hc ].
  - change (rstrip (String c (String d kept)))
      with (match rstrip (String d kept) with
            | EmptyString => if isspace c then "" else String c ""
            | kept' => String c kept'
            end).
    now rewrite IH.
Qed.

(** [strip] leaves nothing for a second [strip]. *)
Lemma strip_idempotent (s : string) : strip (strip s) = strip s.
Proof.
  unfold strip. pose proof (lstrip_head s) as Hhead.
  destruct (lstrip s) as [ | c rest]; [ reflexivity | ].
  rewrite (rstrip_keep c rest Hhead), (lstrip_keep c _ Hhead).
  rewrite (rstrip_keep c _ Hhead). now rewrite rstrip_idempotent.
Qed.

Lemma one_line_snoc (cur : string) (c : ascii) :
  one_line cur = true -> is_linebreak c = false ->
  one_line (cur ++ String c "") = true.
Proof.
  intros Hcur Hc. induction cur as [ | d cur IH]; simpl in *.
  - now rewrite Hc.
  - apply andb_prop in Hcur as [Hd Hcur]. now rewrite Hd, IH.
Qed.

Lemma splitlines_from_one_line (n : nat) :
  forall s cur,
    String.length s <= n -> one_line cur = true ->
    Forall (fun l => one_line l = true) (splitlines_from cur s).
Proof.
  induction n as [ | n IH]; intros s cur Hlen Hcur.
  - destruct s; [ | simpl in Hlen; lia ].
    simpl. destruct cur; repeat constructor. exact Hcur.
  - destruct s as [ | c rest].
    + simpl. destruct cur; repeat constructor. exact Hcur.
    + simpl in Hlen. apply le_S_n in Hlen.
      cbn [splitlines_from]. destruct (is_linebreak c) eqn:Hc.
      * constructor; [ exact Hcur | ].
        destruct rest as [ | d rest'].
        -- now apply IH.
        -- destruct (Ascii.eqb c CR && Ascii.eqb d LF)%bool.
           ++ apply IH; [ simpl in Hlen; lia | reflexivity ].
           ++ now apply IH.
      * apply IH; [ exact Hlen | now apply one_line_snoc ].
Qed.

Lemma lstrip_one_line (s : string) : one_line s = true -> one_line (lstrip s) = true.
Proof.
  induction s as [ | c rest IH]; simpl; [ reflexivity | ].
  intros H. destruct (isspace c); [ | exact H ].
  apply andb_prop in H as [_ H]. now apply IH.
Qed.

Lemma rstrip_one_line (s : string) : one_line s = true -> one_line (rstrip s) = true.
Proof.
  induction s as [ | c rest IH]; simpl; [ reflexivity | ].
  intros H. apply andb_prop in H as [Hc H]. specialize (IH H).
  destruct (rstrip rest) as [ | d kept].
  - destruct (isspace c); simpl; [ reflexivity | now rewrite Hc ].
  - simpl in *. now rewrite Hc, IH.
Qed.

Lemma paths_of_listing_trimmed (out : string) :
  Forall (fun p => p <> "" /\ strip p = p /\ one_line p = true) (paths_of_listing out).
Proof.
  unfold paths_of_listing. apply Forall_forall. intros p Hp.
  apply filter_In in Hp as [Hp Hne]. apply in_map_iff in Hp as (l & <- & Hl).
  split; [ | split ].
  - intro H. now rewrite H in Hne.
  - apply strip_idempotent.
  - unfold strip. apply rstrip_one_line, lstrip_one_line.
    pose proof (splitlines_from_one_line (String.length out) out "" (le_n _) eq_refl)
      as Hlines.
    rewrite Forall_forall in Hlines. now apply Hlines.
Qed.

End StripFacts.

(** X1: the paths that [_changed_files] returns are not empty, have no
    whitespace at either end (a second [strip] changes nothing) and
    hold no line boundary. *)
Theorem changed_files_are_trimmed_single_lines {W : Type} (C : Collaborators W)
    (self : PRReviewBot) (source target : string) (w : W) (files : list string) :
  fst (outcome (exec C (_changed_files source target self) w)) = inr files ->
  Forall (fun p => p <> "" /\ PyStr.strip p = p /\ one_line p = true) files.
Proof.
  rewrite changed_files_run.
  destruct (git_stdout (listing_argv source target) _) as [e | out]; [ discriminate | ].
  intros H. injection H as <-. apply StripFacts.paths_of_listing_trimmed.
Qed.

Lemma changed_files_are_trimmed_single_lines_witness :
  Forall (fun p => p <> "" /\ PyStr.strip p = p /\ one_line p = true)
    ["gone.py"; "hello.py"].
Proof.
  exact (changed_files_are_trimmed_single_lines
           (fixed deleted_repo (generated "Looks fine.")) default_bot "feature" "main" tt
           ["gone.py"; "hello.py"] eq_refl).
Defined.

(** ** The prompt *)

Module DedentFacts.
Import PyStr PyStrFacts.

Lemma split_nl_cons (s : string) : exists l ls, split_nl s = l :: ls.
Proof.
  induction s as [ | c rest IH]; simpl; [ now exists "", [] | ].
  destruct (Ascii.eqb c LF); [ now eexists; eexists | ].
  destruct IH as (l & ls & ->). now eexists; eexists.
Qed.

Lemma split_nl_app_nl (a b : string) :
  split_nl (a ++ nl ++ b) = (split_nl a ++ split_nl b)%list.
Proof.
  induction a as [ | c a IH]; [ reflexivity | ].
  cbn [append split_nl]. rewrite IH. destruct (Ascii.eqb c LF); [ reflexivity | ].
  destruct (split_nl_cons a) as (l & ls & ->). reflexivity.
Qed.

Lemma join_nl_app (l1 l2 : list string) :
  l1 <> [] -> l2 <> [] ->
  join_nl (l1 ++ l2) = join_nl l1 ++ nl ++ join_nl l2.
Proof.
  intros H1 H2. induction l1 as [ | x [ | y l1] IH].
  - contradiction.
  - destruct l2; [ contradiction | reflexivity ].
  - change (join_nl ((x :: y :: l1) ++ l2))
      with (x ++ nl ++ join_nl ((y :: l1) ++ l2)).
    rewrite IH by discriminate.
    change (join_nl (x :: y :: l1)) with (x ++ nl ++ join_nl (y :: l1)).
    now rewrite !append_assoc.
Qed.

Lemma join_nl_head (c : ascii) (l : string) (ls : list string) :
  join_nl (String c l :: ls) = String c (join_nl (l :: ls)).
Proof. now destruct ls. Qed.

Lemma join_split (s : string) : join_nl (split_nl s) = s.
Proof.
  induction s as [ | c rest IH]; simpl; [ reflexivity | ].
  destruct (split_nl_cons rest) as (l & ls & E). rewrite E in *.
  destruct (Ascii.eqb c LF) eqn:Hc.
  - apply Ascii.eqb_eq in Hc. subst c.
    change (join_nl ("" :: l :: ls)) with ("" ++ nl ++ join_nl (l :: ls)).
    now rewrite IH.
  - now rewrite join_nl_head, IH.
Qed.

Lemma map_lines_app_nl (f : string -> string) (a b : string) :
  map_lines f (a ++ nl ++ b) = map_lines f a ++ nl ++ map_lines f b.
Proof.
  unfold map_lines. rewrite split_nl_app_nl, map_app.
  destruct (split_nl_cons a) as (l & ls & ->).
  destruct (split_nl_cons b) as (l' & ls' & ->).
  now apply join_nl_app.
Qed.

(** [dedent] is one function on every line. *)
Lemma dedent_map_lines (text : string) :
  dedent text
  = match fold_left margin_step (indents (map normalize_line (split_nl text))) None with
    | Some (String c m) =>
        map_lines (fun l => remove_margin (String c m) (normalize_line l)) text
    | _ => map_lines normalize_line text
    end.
Proof.
  unfold dedent, map_lines.
  destruct (fold_left margin_step _ None) as [ [ | c m] | ];
    try reflexivity.
  now rewrite map_map.
Qed.

Lemma margin_step_empty (init : option string) : margin_step init "" = Some "".
Proof. destruct init as [ [ | c m] | ]; reflexivity. Qed.

Lemma margin_stays_empty (xs : list string) :
  fold_left margin_step xs (Some "") = Some "".
Proof.
  induction xs as [ | x xs IH]; simpl; [ reflexivity | ].
  now destruct x.
Qed.

Lemma margin_of_flush (xs : list string) :
  forall init, In "" xs -> fold_left margin_step xs init = Some "".
Proof.
  induction xs as [ | x xs IH]; intros init Hin; [ destruct Hin | ].
  destruct Hin as [Hx | Hx]; simpl.
  - subst x. rewrite margin_step_empty. apply margin_stays_empty.
  - now apply IH.
Qed.

Lemma flush_line (l : string) :
  flush l = true -> whitespace_only l = false /\ leading_whitespace l = "".
Proof.
  destruct l as [ | c rest]; simpl; [ discriminate | ].
  intros H. apply negb_true_iff in H. now rewrite H.
Qed.

(** A text with a flush line has no margin: [dedent] only blanks its
    lines of spaces and tabs. *)
Lemma dedent_flush (text l : string) :
  In l (split_nl text) -> flush l = true ->
  dedent text = map_lines normalize_line text.
Proof.
  intros Hin Hflush. destruct (flush_line l Hflush) as [Hws Hlead].
  rewrite dedent_map_lines, margin_of_flush; [ reflexivity | ].
  unfold indents. rewrite <- Hlead. apply in_map. apply filter_In. split.
  - apply in_map_iff. exists l. split; [ | exact Hin ].
    unfold normalize_line. now rewrite Hws.
  - now rewrite Hws.
Qed.

End DedentFacts.

Module PromptFacts.
Import PyStr PyStrFacts DedentFacts.

Lemma blank_is_space (c : ascii) : is_blank c = true -> isspace c = true.
Proof.
  unfold is_blank. intros H. apply orb_prop in H as [H | H];
    apply Ascii.eqb_eq in H; now subst c.
Qed.

Lemma lstrip_blank (b s : string) :
  whitespace_only b = true -> lstrip (b ++ s) = lstrip s.
Proof.
  induction b as [ | c b IH]; simpl; [ reflexivity | ].
  intros H. apply andb_prop in H as [Hc Hb].
  now rewrite (blank_is_space c Hc), IH.
Qed.

Lemma rstrip_app (a b : string) :
  rstrip b <> "" -> rstrip (a ++ b) = a ++ rstrip b.
Proof.
  intros Hb. induction a as [ | c a IH]; [ reflexivity | ].
  cbn [append rstrip]. rewrite IH.
  destruct (a ++ rstrip b) as [ | d k] eqn:E; [ | reflexivity ].
  destruct a; [ simpl in E; contradiction | discriminate ].
Qed.

Lemma whitespace_only_app (a b : string) :
  whitespace_only (a ++ b) = whitespace_only a && whitespace_only b.
Proof.
  induction a as [ | c a IH]; simpl; [ reflexivity | ].
  now rewrite IH, andb_assoc.
Qed.

Lemma leading_whitespace_blank (l : string) :
  whitespace_only (leading_whitespace l) = true.
Proof.
  induction l as [ | c l IH]; simpl; [ reflexivity | ].
  destruct (is_blank c) eqn:Hc; simpl; [ now rewrite Hc | reflexivity ].
Qed.

Lemma cut_at_mismatch_blank (m : string) :
  forall i cut, whitespace_only m = true -> cut_at_mismatch m i = Some cut ->
                whitespace_only cut = true.
Proof.
  induction m as [ | x m IH]; intros [ | y i] cut Hm Hcut; simpl in *;
    try discriminate.
  apply andb_prop in Hm as [Hx Hm].
  destruct (Ascii.eqb x y).
  - destruct (cut_at_mismatch m i) as [cut' | ] eqn:E; [ | discriminate ].
    injection Hcut as <-. simpl. now rewrite Hx, (IH i cut' Hm E).
  - now injection Hcut as <-.
Qed.

Lemma margin_step_blank (init : option string) (indent m : string) :
  (forall m0, init = Some m0 -> whitespace_only m0 = true) ->
  whitespace_only indent = true ->
  margin_step init indent = Some m -> whitespace_only m = true.
Proof.
  intros Hinit Hindent. destruct init as [m0 | ]; simpl.
  - specialize (Hinit m0 eq_refl).
    destruct (String.prefix m0 indent); [ now intros [= <-] | ].
    destruct (String.prefix indent m0); [ now intros [= <-] | ].
    destruct (cut_at_mismatch m0 indent) as [cut | ] eqn:E.
    + intros [= <-]. exact (cut_at_mismatch_blank m0 indent cut Hinit E).
    + now intros [= <-].
  - now intros [= <-].
Qed.

Lemma margin_blank (xs : list string) :
  forall init m,
    (forall m0, init = Some m0 -> whitespace_only m0 = true) ->
    Forall (fun x => whitespace_only x = true) xs ->
    fold_left margin_step xs init = Some m -> whitespace_only m = true.
Proof.
  induction xs as [ | x xs IH]; intros init m Hinit Hxs; simpl.
  - intros ->. now apply Hinit.
  - inversion Hxs as [ | x' xs' Hx Hxs' ]; subst.
    apply IH; [ | exact Hxs' ].
    intros m0 Hm0. exact (margin_step_blank init x m0 Hinit Hx Hm0).
Qed.

(** The margin of [dedent] is made of spaces and tabs. *)
Lemma dedent_margin_blank (text m : string) :
  fold_left margin_step (indents (map normalize_line (split_nl text))) None = Some m ->
  whitespace_only m = true.
Proof.
  apply margin_blank; [ discriminate | ].
  unfold indents. apply Forall_forall. intros x Hx.
  apply in_map_iff in Hx as (l & <- & _). apply leading_whitespace_blank.
Qed.

Lemma drop_app (m post : string) : drop (String.length m) (m ++ post) = post.
Proof. induction m as [ | c m IH]; simpl; [ now destruct post | exact IH ]. Qed.

Lemma blank_prefix (m : string) :
  forall b c s post,
    whitespace_only m = true -> whitespace_only b = true -> is_blank c = false ->
    b ++ String c s = m ++ post ->
    exists b', b = m ++ b'.
Proof.
  induction m as [ | x m IH]; intros b c s post Hm Hb Hc Heq.
  - now exists b.
  - simpl in Hm. apply andb_prop in Hm as [Hx Hm].
    destruct b as [ | y b]; simpl in Heq.
    + injection Heq as -> _. congruence.
    + injection Heq as -> Heq. simpl in Hb. apply andb_prop in Hb as [_ Hb].
      destruct (IH b c s post Hm Hb Hc Heq) as [b' ->]. now exists b'.
Qed.

(** Removing a margin of spaces and tabs from a line leaves its text
    after the indentation as it is. *)
Lemma remove_margin_keeps_text (m b : string) (c : ascii) (s : string) :
  whitespace_only m = true -> whitespace_only b = true -> is_blank c = false ->
  exists b', whitespace_only b' = true
             /\ remove_margin m (b ++ String c s) = b' ++ String c s.
Proof.
  intros Hm Hb Hc. unfold remove_margin.
  destruct (String.prefix m (b ++ String c s)) eqn:Hp; [ | now exists b ].
  apply prefix_iff in Hp as [post Hpost].
  destruct (blank_prefix m b c s post Hm Hb Hc Hpost) as [b' ->].
  exists b'. rewrite whitespace_only_app in Hb. apply andb_prop in Hb as [_ Hb'].
  split; [ exact Hb' | ].
  now rewrite append_assoc, drop_app.
Qed.

Lemma prompt_text_shape (file_path diff full_content source target : string) :
  prompt_text file_path diff full_content source target
  = "" ++ nl ++ (indent12 ++ prompt_header) ++ nl
       ++ prompt_intro file_path source target ++ nl
       ++ (indent12 ++ full_content) ++ nl
       ++ prompt_between ++ nl
       ++ (indent12 ++ diff) ++ nl
       ++ prompt_end.
Proof.
  unfold prompt_text, prompt_intro, prompt_between, prompt_end, join_nl.
  cbn [String.concat]. now rewrite !append_assoc.
Qed.

Lemma map_lines_end (g : string -> string) :
  map_lines g prompt_end
  = g (indent12 ++ "</diff_patch>") ++ nl ++ g "" ++ nl
      ++ g (indent12 ++ prompt_closing) ++ nl ++ g indent12.
Proof. reflexivity. Qed.

Lemma split_nl_indent12 (v l : string) (ls : list string) :
  split_nl v = l :: ls -> split_nl (indent12 ++ v) = (indent12 ++ l) :: ls.
Proof. intros E. unfold indent12. simpl. now rewrite E. Qed.

Lemma join_nl_prefix (p l : string) (ls : list string) :
  join_nl ((p ++ l) :: ls) = p ++ join_nl (l :: ls).
Proof.
  destruct ls as [ | l' ls]; [ reflexivity | ].
  change (join_nl ((p ++ l) :: l' :: ls)) with ((p ++ l) ++ nl ++ join_nl (l' :: ls)).
  now rewrite append_assoc.
Qed.

Lemma normalize_clean (ls : list string) :
  forallb (fun l => negb (whitespace_only l) || negb (truthy l)) ls = true ->
  map normalize_line ls = ls.
Proof.
  induction ls as [ | l ls IH]; simpl; [ reflexivity | ].
  intros H. apply andb_prop in H as [Hl Hls]. rewrite (IH Hls). f_equal.
  unfold normalize_line. destruct (whitespace_only l); [ | reflexivity ].
  destruct l; [ reflexivity | discriminate ].
Qed.

(** Without blank lines in [v], blanking the lines of the indented [v]
    leaves [v] as it is, with or without the indentation before it. *)
Lemma normalize_indented (v : string) :
  no_blank_lines v = true ->
  exists x, map_lines normalize_line (indent12 ++ v) = x ++ v.
Proof.
  unfold no_blank_lines, map_lines. intros Hv.
  destruct (split_nl_cons v) as (l & ls & E). rewrite E in Hv.
  rewrite (split_nl_indent12 v l ls E).
  simpl in Hv. apply andb_prop in Hv as [Hl Hls].
  cbn [map]. rewrite (normalize_clean ls Hls).
  assert (Hv : join_nl (l :: ls) = v) by (rewrite <- E; apply join_split).
  unfold normalize_line.
  replace (whitespace_only (indent12 ++ l)) with (whitespace_only l)
    by (now rewrite whitespace_only_app).
  destruct (whitespace_only l) eqn:Hws.
  - destruct l; [ | discriminate ]. exists "". now rewrite Hv.
  - exists indent12. now rewrite join_nl_prefix, Hv.
Qed.

(** The prompt, when [dedent] works as [g] on every line. *)
Lemma build_prompt_lines (g : string -> string)
    (file_path diff full_content source target : string) :
  dedent (prompt_text file_path diff full_content source target)
  = map_lines g (prompt_text file_path diff full_content source target) ->
  g "" = "" -> g indent12 = "" ->
  (exists b1, whitespace_only b1 = true
              /\ g (indent12 ++ prompt_header) = b1 ++ prompt_header) ->
  (exists b3, whitespace_only b3 = true
              /\ g (indent12 ++ prompt_closing) = b3 ++ prompt_closing) ->
  exists b3,
    whitespace_only b3 = true
    /\ build_prompt file_path diff full_content source target
       = prompt_header ++ nl
        ++ map_lines g (prompt_intro file_path source target) ++ nl
        ++ map_lines g (indent12 ++ full_content) ++ nl
        ++ map_lines g prompt_between ++ nl
        ++ map_lines g (indent12 ++ diff) ++ nl
        ++ g (indent12 ++ "</diff_patch>") ++ nl ++ nl
        ++ b3 ++ prompt_closing.
Proof.
  intros Hdedent Hempty Hlast (b1 & Hb1 & Hhead) (b3 & Hb3 & Hclose).
  exists b3. split; [ exact Hb3 | ]. unfold build_prompt, strip.
  rewrite Hdedent, prompt_text_shape, !map_lines_app_nl, map_lines_end.
  change (map_lines g "") with (g "").
  change (map_lines g (indent12 ++ prompt_header)) with (g (indent12 ++ prompt_header)).
  rewrite Hempty, Hlast, Hhead, Hclose.
  set (GA := map_lines g (prompt_intro file_path source target)).
  set (GC := map_lines g (indent12 ++ full_content)).
  set (GM := map_lines g prompt_between).
  set (GD := map_lines g (indent12 ++ diff)).
  set (GE := g (indent12 ++ "</diff_patch>")).
  change ("" ++ nl ++ (b1 ++ prompt_header) ++ nl ++ GA ++ nl ++ GC ++ nl ++ GM ++ nl
            ++ GD ++ nl ++ GE ++ nl ++ "" ++ nl ++ (b3 ++ prompt_closing) ++ nl ++ "")
    with (String LF ((b1 ++ prompt_header) ++ nl ++ GA ++ nl ++ GC ++ nl ++ GM ++ nl
                       ++ GD ++ nl ++ GE ++ nl ++ nl ++ (b3 ++ prompt_closing) ++ nl)).
  change (lstrip (String LF ?s)) with (lstrip s).
  rewrite append_assoc, (lstrip_blank b1 _ Hb1).
  change (lstrip (prompt_header ++ ?s)) with (prompt_header ++ s).
  replace (prompt_header ++ nl ++ GA ++ nl ++ GC ++ nl ++ GM ++ nl ++ GD ++ nl ++ GE
             ++ nl ++ nl ++ (b3 ++ prompt_closing) ++ nl)
    with ((prompt_header ++ nl ++ GA ++ nl ++ GC ++ nl ++ GM ++ nl ++ GD ++ nl ++ GE
             ++ nl ++ nl ++ b3) ++ (prompt_closing ++ nl))
    by (now rewrite !append_assoc).
  rewrite rstrip_app by discriminate.
  change (rstrip (prompt_closing ++ nl)) with prompt_closing.
  now rewrite !append_assoc.
Qed.

End PromptFacts.

(** X13: when the patch has a flush line after its first (as [index], [---]
    and [+++] are in a patch of git) and neither the patch nor the
    content has a line of spaces and tabs only, the prompt holds the
    content and the patch as they came. *)
Theorem prompt_holds_clean_patch_and_content
    (file_path diff full_content source target : string) :
  has_flush_line diff = true ->
  no_blank_lines diff = true ->
  no_blank_lines full_content = true ->
  PyStr.substring full_content (build_prompt file_path diff full_content source target)
  /\ PyStr.substring diff (build_prompt file_path diff full_content source target).
Proof.
  intros Hflush Hdiff Hcontent.
  assert (Hdedent : PyStr.dedent (prompt_text file_path diff full_content source target)
                    = map_lines PyStr.normalize_line
                        (prompt_text file_path diff full_content source target)).
  { unfold has_flush_line in Hflush. apply existsb_exists in Hflush as (l & Hl & Hfl).
    apply (DedentFacts.dedent_flush _ l); [ | exact Hfl ].
    rewrite PromptFacts.prompt_text_shape, !DedentFacts.split_nl_app_nl.
    destruct (DedentFacts.split_nl_cons diff) as (d1 & ds & E).
    rewrite (PromptFacts.split_nl_indent12 diff d1 ds E).
    rewrite E in Hl. simpl in Hl.
    rewrite !in_app_iff. do 5 right. left. now right. }
  destruct (PromptFacts.build_prompt_lines PyStr.normalize_line
              file_path diff full_content source target Hdedent eq_refl eq_refl)
    as (b3 & _ & Hprompt).
  { exists indent12. split; reflexivity. }
  { exists indent12. split; reflexivity. }
  destruct (PromptFacts.normalize_indented full_content Hcontent) as [x Hx].
  destruct (PromptFacts.normalize_indented diff Hdiff) as [y Hy].
  rewrite Hprompt, Hx, Hy, !PyStrFacts.append_assoc.
  split;
    repeat first [ apply PyStrFacts.substring_here | apply PyStrFacts.substring_skip ].
Qed.

Lemma prompt_holds_clean_patch_and_content_witness :
  PyStr.substring ("print('hello world')" ++ PyStr.nl)
    (build_prompt "hello.py" hello_diff ("print('hello world')" ++ PyStr.nl)
       "feature" "main")
  /\ PyStr.substring hello_diff
       (build_prompt "hello.py" hello_diff ("print('hello world')" ++ PyStr.nl)
          "feature" "main").
Proof.
  apply (prompt_holds_clean_patch_and_content "hello.py" hello_diff
           ("print('hello world')" ++ PyStr.nl) "feature" "main");
    vm_compute; reflexivity.
Defined.

(** X14: whatever the path, the patch, the content and the refs are, the
    prompt starts with the first sentence of the text and ends with its
    last one: nothing that is put into the text can displace them, and
    the prompt is never empty. *)
Theorem prompt_keeps_its_frame (file_path diff full_content source target : string) :
  exists body,
    build_prompt file_path diff full_content source target
    = prompt_header ++ body ++ prompt_closing.
Proof.
  assert (Hframe : forall g,
             PyStr.dedent (prompt_text file_path diff full_content source target)
             = map_lines g (prompt_text file_path diff full_content source target) ->
             g "" = "" -> g indent12 = "" ->
             (exists b1, PyStr.whitespace_only b1 = true
                         /\ g (indent12 ++ prompt_header) = b1 ++ prompt_header) ->
             (exists b3, PyStr.whitespace_only b3 = true
                         /\ g (indent12 ++ prompt_closing) = b3 ++ prompt_closing) ->
             exists body,
               build_prompt file_path diff full_content source target
               = prompt_header ++ body ++ prompt_closing).
  { intros g H1 H2 H3 H4 H5.
    destruct (PromptFacts.build_prompt_lines g file_path diff full_content source target
                H1 H2 H3 H4 H5) as (b3 & _ & ->).
    exists (PyStr.nl
              ++ map_lines g (prompt_intro file_path source target) ++ PyStr.nl
              ++ map_lines g (indent12 ++ full_content) ++ PyStr.nl
              ++ map_lines g prompt_between ++ PyStr.nl
              ++ map_lines g (indent12 ++ diff) ++ PyStr.nl
              ++ g (indent12 ++ "</diff_patch>") ++ PyStr.nl ++ PyStr.nl ++ b3).
    now rewrite !PyStrFacts.append_assoc. }
  pose proof (DedentFacts.dedent_map_lines
                (prompt_text file_path diff full_content source target)) as Hdedent.
  destruct (fold_left PyStr.margin_step _ None) as [ [ | c m] | ] eqn:Hmargin.
  - apply (Hframe PyStr.normalize_line Hdedent eq_refl eq_refl);
      exists indent12; split; reflexivity.
  - apply PromptFacts.dedent_margin_blank in Hmargin.
    apply (Hframe _ Hdedent eq_refl eq_refl).
    + exact (PromptFacts.remove_margin_keeps_text (String c m) indent12 "Y"%char _
               Hmargin eq_refl eq_refl).
    + exact (PromptFacts.remove_margin_keeps_text (String c m) indent12 "P"%char _
               Hmargin eq_refl eq_refl).
  - apply (Hframe PyStr.normalize_line Hdedent eq_refl eq_refl);
      exists indent12; split; reflexivity.
Qed.

Module LineFacts.
Import PyStr PyStrFacts DedentFacts PromptFacts.

Lemma no_lf_app (a b : string) : no_lf (a ++ b) = no_lf a && no_lf b.
Proof.
  induction a as [ | c a IH]; simpl; [ reflexivity | ].
  now rewrite IH, andb_assoc.
Qed.

Lemma split_nl_no_lf (s : string) : no_lf s = true -> split_nl s = [s].
Proof.
  induction s as [ | c s IH]; simpl; [ reflexivity | ].
  intros H. apply andb_prop in H as [Hc Hs]. apply negb_true_iff in Hc.
  now rewrite Hc, (IH Hs).
Qed.

Lemma split_nl_lines_no_lf (s : string) :
  Forall (fun l => no_lf l = true) (split_nl s).
Proof.
  induction s as [ | c s IH]; simpl; [ now repeat constructor | ].
  destruct (Ascii.eqb c LF) eqn:Hc; [ now constructor | ].
  destruct (split_nl s) as [ | l ls]; [ repeat constructor; simpl; now rewrite Hc | ].
  inversion IH as [ | l' ls' Hl Hls ]; subst. constructor; [ | exact Hls ].
  simpl. now rewrite Hc, Hl.
Qed.

Lemma split_join (ls : list string) :
  ls <> [] -> Forall (fun l => no_lf l = true) ls -> split_nl (join_nl ls) = ls.
Proof.
  intros Hne Hls. induction ls as [ | x [ | y ls] IH]; [ contradiction | | ].
  - inversion Hls; subst. now apply split_nl_no_lf.
  - inversion Hls as [ | x' ls' Hx Hrest ]; subst.
    change (join_nl (x :: y :: ls)) with (x ++ nl ++ join_nl (y :: ls)).
    rewrite split_nl_app_nl, (split_nl_no_lf x Hx), IH; [ reflexivity | discriminate | exact Hrest ].
Qed.

Lemma drop_no_lf (n : nat) : forall s, no_lf s = true -> no_lf (drop n s) = true.
Proof.
  induction n as [ | n IH]; intros [ | c s] H; simpl; try exact H.
  simpl in H. apply andb_prop in H as [_ H]. now apply IH.
Qed.

Lemma clean_not_blank (l : string) : whitespace_only l = false -> clean_line l = true.
Proof. intros H. unfold clean_line. now rewrite H. Qed.

Lemma normalize_line_map : line_map normalize_line.
Proof.
  repeat split.
  - intros c s Hc. exists indent12. split; [ reflexivity | ].
    unfold normalize_line. rewrite whitespace_only_app. simpl. now rewrite Hc.
  - intro l. unfold normalize_line.
    destruct (whitespace_only l) eqn:Hl; [ reflexivity | now apply clean_not_blank ].
  - intros l Hl. unfold normalize_line. now destruct (whitespace_only l).
Qed.

Lemma margin_line_map (c0 : ascii) (m : string) :
  whitespace_only (String c0 m) = true ->
  line_map (fun l => remove_margin (String c0 m) (normalize_line l)).
Proof.
  intros Hm. repeat split.
  - intros c s Hc.
    replace (normalize_line (indent12 ++ String c s)) with (indent12 ++ String c s).
    + exact (remove_margin_keeps_text (String c0 m) indent12 c s Hm eq_refl Hc).
    + unfold normalize_line. rewrite whitespace_only_app. simpl. now rewrite Hc.
  - intro l. unfold normalize_line.
    destruct (whitespace_only l) eqn:Hl; [ reflexivity | ].
    unfold remove_margin.
    destruct (String.prefix (String c0 m) l) eqn:Hp; [ | now apply clean_not_blank ].
    apply prefix_iff in Hp as [post ->]. rewrite drop_app.
    rewrite whitespace_only_app, Hm in Hl. simpl in Hl. now apply clean_not_blank.
  - intros l Hl. unfold normalize_line.
    destruct (whitespace_only l); [ reflexivity | ].
    unfold remove_margin. destruct (String.prefix (String c0 m) l); [ | exact Hl ].
    now apply drop_no_lf.
Qed.

(** [dedent] works line by line, as a [line_map]. *)
Lemma dedent_line_map (text : string) :
  exists g, line_map g /\ dedent text = map_lines g text.
Proof.
  pose proof (dedent_map_lines text) as H.
  destruct (fold_left margin_step _ None) as [ [ | c m] | ] eqn:Hmargin.
  - exists normalize_line. split; [ apply normalize_line_map | exact H ].
  - eexists. split; [ | exact H ].
    apply margin_line_map. exact (dedent_margin_blank text _ Hmargin).
  - exists normalize_line. split; [ apply normalize_line_map | exact H ].
Qed.

Lemma split_map_lines (g : string -> string) (s : string) :
  line_map g -> split_nl (map_lines g s) = map g (split_nl s).
Proof.
  intros (_ & _ & _ & _ & Hlf). unfold map_lines. apply split_join.
  - destruct (split_nl_cons s) as (l & ls & ->). discriminate.
  - apply Forall_forall. intros x Hx. apply in_map_iff in Hx as (l & <- & Hl).
    apply Hlf. pose proof (split_nl_lines_no_lf s) as H.
    rewrite Forall_forall in H. now apply H.
Qed.

Lemma map_lines_clean (g : string -> string) (s : string) :
  line_map g -> forallb clean_line (split_nl (map_lines g s)) = true.
Proof.
  intros Hg. rewrite (split_map_lines g s Hg).
  destruct Hg as (_ & _ & _ & Hclean & _).
  apply forallb_forall. intros x Hx. apply in_map_iff in Hx as (l & <- & _).
  apply Hclean.
Qed.

(** The prompt, line by line. *)
Lemma build_prompt_by_lines (file_path diff full_content source target : string) :
  exists g b3,
    line_map g
    /\ whitespace_only b3 = true
    /\ build_prompt file_path diff full_content source target
       = prompt_header ++ nl
           ++ map_lines g (prompt_intro file_path source target) ++ nl
           ++ map_lines g (indent12 ++ full_content) ++ nl
           ++ map_lines g prompt_between ++ nl
           ++ map_lines g (indent12 ++ diff) ++ nl
           ++ g (indent12 ++ "</diff_patch>") ++ nl ++ nl
           ++ b3 ++ prompt_closing.
Proof.
  destruct (dedent_line_map (prompt_text file_path diff full_content source target))
    as (g & Hg & Hdedent).
  pose proof Hg as (H1 & H2 & H3 & _ & _).
  destruct (build_prompt_lines g file_path diff full_content source target
              Hdedent H1 H2) as (b3 & Hb3 & Hprompt).
  - exact (H3 "Y"%char _ eq_refl).
  - exact (H3 "P"%char _ eq_refl).
  - now exists g, b3.
Qed.

Lemma blank_no_lf (b : string) : whitespace_only b = true -> no_lf b = true.
Proof.
  induction b as [ | c b IH]; simpl; [ reflexivity | ].
  intros H. apply andb_prop in H as [Hc Hb]. rewrite (IH Hb), andb_true_r.
  unfold is_blank in Hc. apply orb_prop in Hc as [Hc | Hc];
    apply Ascii.eqb_eq in Hc; now subst c.
Qed.

(** The lines of the prompt. *)
Lemma build_prompt_split (file_path diff full_content source target : string) :
  exists g b3,
    line_map g
    /\ whitespace_only b3 = true
    /\ split_nl (build_prompt file_path diff full_content source target)
       = ([prompt_header]
          ++ map g (split_nl (prompt_intro file_path source target))
          ++ map g (split_nl (indent12 ++ full_content)%string)
          ++ map g (split_nl prompt_between)
          ++ map g (split_nl (indent12 ++ diff)%string)
          ++ [g (indent12 ++ "</diff_patch>")%string; ""; (b3 ++ prompt_closing)%string])%list.
Proof.
  destruct (build_prompt_by_lines file_path diff full_content source target)
    as (g & b3 & Hg & Hb3 & ->).
  exists g, b3. split; [ exact Hg | ]. split; [ exact Hb3 | ].
  pose proof Hg as (_ & _ & _ & _ & Hlf).
  change (nl ++ nl ++ b3 ++ prompt_closing) with (nl ++ "" ++ nl ++ b3 ++ prompt_closing).
  rewrite !split_nl_app_nl, !(split_map_lines g _ Hg).
  rewrite (split_nl_no_lf (g (indent12 ++ "</diff_patch>"))
             (Hlf (indent12 ++ "</diff_patch>") eq_refl)).
  rewrite (split_nl_no_lf (b3 ++ prompt_closing)).
  - reflexivity.
  - rewrite no_lf_app, (blank_no_lf b3 Hb3). reflexivity.
Qed.

Lemma build_prompt_clean (file_path diff full_content source target : string) :
  no_blank_lines (build_prompt file_path diff full_content source target) = true.
Proof.
  destruct (build_prompt_split file_path diff full_content source target)
    as (g & b3 & Hg & Hb3 & Hsplit).
  pose proof Hg as (_ & _ & _ & Hclean & _).
  unfold no_blank_lines. fold clean_line. rewrite Hsplit.
  assert (Hmap : forall ls, forallb clean_line (map g ls) = true).
  { intro ls. apply forallb_forall. intros x Hx.
    apply in_map_iff in Hx as (l & <- & _). apply Hclean. }
  rewrite !forallb_app, !Hmap. cbn [forallb]. rewrite Hclean.
  replace (clean_line (b3 ++ prompt_closing)) with true; [ reflexivity | ].
  symmetry. apply clean_not_blank.
  rewrite whitespace_only_app, Hb3. reflexivity.
Qed.

End LineFacts.


(** X16: no line of the prompt is made of spaces and tabs only, whatever
    the path, the patch, the content and the refs are. *)
Theorem prompt_has_no_blank_line (file_path diff full_content source target : string) :
  no_blank_lines (build_prompt file_path diff full_content source target) = true.
Proof. apply LineFacts.build_prompt_clean. Qed.

(** X17: a patch with a line of spaces and tabs between two line feeds, as
    the empty context line of a patch of git is, never reaches the
    model as it came: the prompt does not hold it. *)
Theorem prompt_never_holds_a_blank_context_line
    (file_path diff full_content source target above blank below : string) :
  diff = above ++ PyStr.nl ++ blank ++ PyStr.nl ++ below ->
  PyStr.whitespace_only blank = true ->
  blank <> "" ->
  ~ PyStr.substring diff (build_prompt file_path diff full_content source target).
Proof.
  intros Hdiff Hblank Hne (pre & post & Hprompt).
  pose proof (LineFacts.build_prompt_clean file_path diff full_content source target) as Hno.
  rewrite Hprompt, Hdiff in Hno. unfold no_blank_lines in Hno.
  replace (pre ++ (above ++ PyStr.nl ++ blank ++ PyStr.nl ++ below) ++ post)
    with ((pre ++ above) ++ PyStr.nl ++ blank ++ PyStr.nl ++ (below ++ post)) in Hno
    by (now rewrite !PyStrFacts.append_assoc).
  rewrite !DedentFacts.split_nl_app_nl, !forallb_app in Hno.
  rewrite (LineFacts.split_nl_no_lf blank (LineFacts.blank_no_lf blank Hblank)) in Hno.
  cbn [forallb] in Hno. rewrite Hblank in Hno.
  destruct blank; [ contradiction | ].
  simpl in Hno. rewrite !andb_false_r in Hno. discriminate.
Qed.

Lemma prompt_never_holds_a_blank_context_line_witness :
  ~ PyStr.substring spaced_diff
      (build_prompt "hello.py" spaced_diff spaced_content "feature" "main").
Proof.
  apply (prompt_never_holds_a_blank_context_line "hello.py" spaced_diff spaced_content
           "feature" "main"
           (PyStr.join_nl [ "diff --git a/hello.py b/hello.py";
                            "index 3b2aed8..0e5a1a2 100644";
                            "--- a/hello.py";
                            "+++ b/hello.py";
                            "@@ -1,3 +1,3 @@";
                            " import os" ])
           " "
           (PyStr.join_nl [ "-print('hello')"; "+print('hello world')"; "" ])).
  - reflexivity.
  - reflexivity.
  - discriminate.
Defined.

(** X15: when the refs and the path hold no line feed, the prompt names
    both refs and the path, whatever the patch and the content are. *)
Theorem prompt_names_refs_and_path (file_path diff full_content source target : string) :
  no_lf source = true -> no_lf target = true -> no_lf file_path = true ->
  PyStr.substring source (build_prompt file_path diff full_content source target)
  /\ PyStr.substring target (build_prompt file_path diff full_content source target)
  /\ PyStr.substring file_path (build_prompt file_path diff full_content source target).
Proof.
  intros Hsource Htarget Hpath.
  destruct (LineFacts.build_prompt_by_lines file_path diff full_content source target)
    as (g & b3 & Hg & _ & ->).
  pose proof Hg as (_ & _ & Hkeep & _ & _).
  set (refs := "Compare two branches: " ++ target ++ " (base) and " ++ source
               ++ " (feature).").
  set (named := "A developer has changed the file `" ++ file_path
                ++ "`. You are given the full").
  assert (Hrefs : exists b, map_lines g (indent12 ++ refs) = b ++ refs).
  { destruct (Hkeep "C"%char ("ompare two branches: " ++ target ++ " (base) and "
                              ++ source ++ " (feature).") eq_refl) as (b & _ & Hb).
    exists b. unfold map_lines. rewrite LineFacts.split_nl_no_lf; [ exact Hb | ].
    unfold refs. rewrite !LineFacts.no_lf_app, Hsource, Htarget. reflexivity. }
  assert (Hnamed : exists b, map_lines g (indent12 ++ named) = b ++ named).
  { destruct (Hkeep "A"%char (" developer has changed the file `" ++ file_path
                              ++ "`. You are given the full") eq_refl) as (b & _ & Hb).
    exists b. unfold map_lines. rewrite LineFacts.split_nl_no_lf; [ exact Hb | ].
    unfold named. rewrite !LineFacts.no_lf_app, Hpath. reflexivity. }
  destruct Hrefs as [b Hrefs]. destruct Hnamed as [b' Hnamed].
  unfold prompt_intro, PyStr.join_nl. cbn [String.concat].
  fold refs. fold named.
  rewrite (DedentFacts.map_lines_app_nl g (indent12 ++ refs)).
  rewrite (DedentFacts.map_lines_app_nl g (indent12 ++ named)).
  rewrite Hrefs, Hnamed. unfold refs, named.
  rewrite !PyStrFacts.append_assoc.
  repeat split;
    repeat first [ apply PyStrFacts.substring_here | apply PyStrFacts.substring_skip ].
Qed.

Lemma prompt_names_refs_and_path_witness :
  PyStr.substring "feature"
    (build_prompt "hello.py" spaced_diff spaced_content "feature" "main")
  /\ PyStr.substring "main"
       (build_prompt "hello.py" spaced_diff spaced_content "feature" "main")
  /\ PyStr.substring "hello.py"
       (build_prompt "hello.py" spaced_diff spaced_content "feature" "main").
Proof.
  apply (prompt_names_refs_and_path "hello.py" spaced_diff spaced_content
           "feature" "main"); reflexivity.
Defined.

(** ** Reading a listing back *)

Module ListingFacts.
Import PyStr PyStrFacts.

Lemma splitlines_from_line (p : string) :
  forall cur rest,
    one_line p = true ->
    splitlines_from cur (p ++ String LF rest) = (cur ++ p) :: splitlines_from "" rest.
Proof.
  induction p as [ | c p IH]; intros cur rest Hp.
  - replace (cur ++ "") with cur
      by (clear; induction cur as [ | x cur IH]; simpl; [ reflexivity | now rewrite <- IH ]).
    cbn [append splitlines_from]. now destruct rest.
  - simpl in Hp. apply andb_prop in Hp as [Hc Hp]. apply negb_true_iff in Hc.
    cbn [append splitlines_from]. rewrite Hc, (IH _ rest Hp).
    now rewrite append_assoc.
Qed.

Lemma paths_of_listing_of (paths : list string) :
  Forall (fun p => p <> "" /\ strip p = p /\ one_line p = true) paths ->
  paths_of_listing (listing_of paths) = paths.
Proof.
  unfold paths_of_listing, splitlines.
  induction paths as [ | p paths IH]; intros H; [ reflexivity | ].
  inversion H as [ | p' paths' (Hne & Hstrip & Hline) Hrest ]; subst.
  cbn [listing_of fold_right]. fold (listing_of paths).
  change (p ++ nl ++ listing_of paths) with (p ++ String LF (listing_of paths)).
  rewrite (splitlines_from_line p "" _ Hline).
  cbn [map filter append]. rewrite Hstrip, (IH Hrest).
  now destruct p.
Qed.

End ListingFacts.

(** X2: when git prints one path per line, and the paths are not empty,
    have no whitespace at either end and hold no line boundary,
    [_changed_files] returns these paths, in order. *)
Theorem changed_files_reads_back_listing {W : Type} (C : Collaborators W)
    (self : PRReviewBot) (source target err : string) (w w' : W) (paths : list string) :
  git_process C w (listing_argv source target) (repo_path self)
  = (Exited 0 (listing_of paths) err, w') ->
  Forall (fun p => p <> "" /\ PyStr.strip p = p /\ one_line p = true) paths ->
  fst (outcome (exec C (_changed_files source target self) w)) = inr paths.
Proof.
  intros Hgit Hpaths. rewrite changed_files_run, Hgit. cbn [fst].
  change (git_stdout (listing_argv source target) (Exited 0 (listing_of paths) err))
    with (@inr exn string (listing_of paths)).
  cbv beta iota. now rewrite ListingFacts.paths_of_listing_of.
Qed.

Lemma changed_files_reads_back_listing_witness :
  fst (outcome (exec (fixed deleted_repo (generated "Looks fine."))
                  (_changed_files "feature" "main" default_bot) tt))
  = inr ["gone.py"; "hello.py"].
Proof.
  apply (changed_files_reads_back_listing
           (fixed deleted_repo (generated "Looks fine.")) default_bot
           "feature" "main" "" tt tt ["gone.py"; "hello.py"]).
  - reflexivity.
  - repeat constructor; discriminate.
Defined.

(** ** Two runs with the same answers *)

Lemma in_step_exec {A W1 W2 : Type} (C1 : Collaborators W1) (C2 : Collaborators W2)
    (p1 : io (result A * PRReviewBot)) :
  forall (p2 : io (result A * PRReviewBot)) (w1 : W1) (w2 : W2),
    in_step p1 p2 ->
    map response_of (trace (exec C1 p1 w1)) = map response_of (trace (exec C2 p2 w2)) ->
    fst (outcome (exec C1 p1 w1)) = fst (outcome (exec C2 p2 w2)).
Proof.
  induction p1 as [x1 | argv1 cwd1 k1 IH | url1 payload1 timeout1 k1 IH];
    intros [x2 | argv2 cwd2 k2 | url2 payload2 timeout2 k2] w1 w2 Hstep;
    simpl in Hstep; try contradiction; simpl.
  - intros _. exact Hstep.
  - destruct (git_process C1 w1 argv1 cwd1) as [o1 w1'].
    destruct (git_process C2 w2 argv2 cwd2) as [o2 w2']. simpl.
    intros H. injection H as -> H. exact (IH o2 (k2 o2) w1' w2' (Hstep o2) H).
  - destruct (http_server C1 w1 url1 payload1 timeout1) as [o1 w1'].
    destruct (http_server C2 w2 url2 payload2 timeout2) as [o2 w2']. simpl.
    intros H. injection H as -> H. exact (IH o2 (k2 o2) w1' w2' (Hstep o2) H).
Qed.

(** The loop of [review] on two bots: what it returns or raises does
    not depend on the bot, only on the answers. *)
Lemma review_loop_in_step (source target : string) (files : list string) :
  forall (reviews : list FileReview) (self1 self2 : PRReviewBot),
    in_step (review_loop source target files reviews self1)
      (review_loop source target files reviews self2).
Proof.
  induction files as [ | p rest IH]; intros reviews self1 self2.
  - reflexivity.
  - simpl. intro o1.
    destruct (completed _ o1) as [e | done1]; simpl; [ reflexivity | ].
    intro o2.
    destruct (completed _ o2) as [e | done2]; simpl; [ reflexivity | ].
    intro o3.
    destruct o3 as [[status body] | | | reason]; simpl; try reflexivity.
    unfold raise_for_status. simpl.
    destruct (error_status status); simpl; [ reflexivity | ].
    destruct body as [ [ | | | | | members ] | ]; simpl; try reflexivity.
    apply IH.
Qed.

Lemma review_in_step (source target : string) (self1 self2 : PRReviewBot) :
  in_step (review source target self1) (review source target self2).
Proof.
  simpl. intro o.
  destruct (completed _ o) as [e | done]; simpl; [ reflexivity | ].
  apply review_loop_in_step.
Qed.

(** A run of [review] that returns: its listing was answered with exit
    status 0, and the reviews are the paths of that answer, in its
    order, with what [_call_model] made of the answers to the posts. *)
Lemma run_review_returns {W : Type} (C : Collaborators W) (self : PRReviewBot)
    (source target : string) (w : W) (rs : list FileReview) :
  fst (outcome (run_review C self source target w)) = inr rs ->
  exists out err calls,
    trace (run_review C self source target w)
    = EvRun (listing_argv source target) (repo_path self) (Exited 0 out err) :: calls
    /\ map path rs = paths_of_listing out
    /\ map (fun fr => inr (comments fr)) rs = map model_reply (post_outcomes calls).
Proof.
  rewrite run_review_unfold.
  destruct (git_process C w (listing_argv source target) (repo_path self)) as [o w'].
  cbv zeta.
  destruct (git_stdout (listing_argv source target) o) as [e | out] eqn:Ho;
    [ discriminate | ].
  cbn [outcome trace]. intros Hrs.
  destruct (git_stdout_exited _ _ _ Ho) as [err ->].
  exists out, err, (trace (exec C (review_loop source target (paths_of_listing out) [] self) w')).
  split; [ reflexivity | ]. split.
  - exact (io_paths_exec C _ _ w'
             (review_loop_paths_in_order source target (paths_of_listing out) [] self)
             rs Hrs).
  - exact (io_paths_exec C _ _ w'
             (review_loop_replies source target (paths_of_listing out) [] self)
             rs Hrs).
Qed.

(** C9: two runs of [review] on the same refs, on any two bots and
    against any collaborators, in which the collaborators gave the same
    answers in the same order, end alike: with the same exception, or
    with the same reviews.  These reviews are fixed by the answers: they
    are the paths that the listing printed, in the order of the listing,
    each with what [_call_model] made of the answer to its post. *)
Theorem review_deterministic {W1 W2 : Type} (C1 : Collaborators W1)
    (C2 : Collaborators W2) (self1 self2 : PRReviewBot) (source target : string)
    (w1 : W1) (w2 : W2) :
  map response_of (trace (run_review C1 self1 source target w1))
  = map response_of (trace (run_review C2 self2 source target w2)) ->
  fst (outcome (run_review C1 self1 source target w1))
  = fst (outcome (run_review C2 self2 source target w2))
  /\ forall rs,
       fst (outcome (run_review C1 self1 source target w1)) = inr rs ->
       exists out err calls,
         trace (run_review C2 self2 source target w2)
         = EvRun (listing_argv source target) (repo_path self2) (Exited 0 out err) :: calls
         /\ map path rs = paths_of_listing out
         /\ map (fun fr => inr (comments fr)) rs = map model_reply (post_outcomes calls).
Proof.
  intros Hanswers.
  assert (Hsame : fst (outcome (run_review C1 self1 source target w1))
                  = fst (outcome (run_review C2 self2 source target w2))).
  { unfold run_review in *.
    exact (in_step_exec C1 C2 _ _ w1 w2 (review_in_step source target self1 self2)
             Hanswers). }
  split; [ exact Hsame | ].
  intros rs Hrs. rewrite Hsame in Hrs.
  exact (run_review_returns C2 self2 source target w2 rs Hrs).
Qed.

Lemma review_deterministic_witness :
  let script := [RunResponse (Exited 0 ("hello.py" ++ PyStr.nl) "");
                 RunResponse (Exited 0 hello_diff "");
                 RunResponse (Exited 0 ("print('hello world')" ++ PyStr.nl) "");
                 PostResponse (generated "stub response")] in
  fst (outcome (run_review (fixed hello_repo (generated "stub response"))
                  default_bot "feature" "main" tt))
  = fst (outcome (run_review scripted
                    (mkBot "/srv/checkout" "codellama" "http://gpu:11434/api/generate")
                    "feature" "main" script)).
Proof.
  intro script.
  apply (review_deterministic (fixed hello_repo (generated "stub response")) scripted
           default_bot (mkBot "/srv/checkout" "codellama" "http://gpu:11434/api/generate")
           "feature" "main" tt script).
  vm_compute. reflexivity.
Defined.
